(** * SteamAPI: a shallow embedding of [steam_api.py]

    The module has one class, [SteamAPI], with three methods:
    [get_steam_id], [get_app_list] and [find_app_id].  They talk to the
    network through [requests], write to [logging], and keep one mutable
    field, [app_list_cache].

    The embedding is a state-and-exception monad over a [machine]: the
    client object, the list of URLs requested so far and the list of log
    records written so far.  Python values that can reach the code (the
    result of [response.json()], [None], the arguments) are the type
    [pyval]. *)

From Stdlib Require Import Floats.
From stdpp Require Import gmap strings list fin_maps.

Set Warnings "-register-all".

Open Scope string_scope.
Open Scope Z_scope.

(** ** Python values *)

(** What [response.json()] can return, plus [None].  A JSON object is a
    [dict]; its items are kept as an association list read from the
    front, so a list stands for the dict holding, for each key, the first
    value listed for it.

    [str] is modelled by [string].  The code uses four operations on
    [str]: equality, emptiness, concatenation and [str.lower].  The first
    three are those of [string]; [str.lower] follows the Unicode tables,
    which are not part of the module, and is taken as a parameter
    ([str_lower], below). *)
Inductive pyval : Type :=
  | PyNone
  | PyBool (b : bool)
  | PyInt (z : Z)
  | PyFloat (f : float)
  | PyStr (s : string)
  | PyList (l : list pyval)
  | PyDict (items : list (string * pyval)).

(** [bool(v)], as used by [if v:] and [not v]. *)
Definition truthy (v : pyval) : bool :=
  match v with
  | PyNone => false
  | PyBool b => b
  | PyInt z => negb (z =? 0)
  | PyFloat f => negb (PrimFloat.eqb f PrimFloat.zero)
  | PyStr s => negb (String.eqb s "")
  | PyList l => match l with [] => false | _ :: _ => true end
  | PyDict items => match items with [] => false | _ :: _ => true end
  end.

(** ** Exceptions *)

(** The subclasses of [requests.RequestException] that the three library
    calls of the module can raise.  [response.json()] raises
    [requests.exceptions.JSONDecodeError], a [RequestException] since
    requests 2.27. *)
Inductive request_exception : Type :=
  | ConnectionError
  | Timeout
  | TooManyRedirects
  | InvalidURL
  | HTTPError (status : Z)
  | JSONDecodeError.

Inductive exn : Type :=
  | RequestException (e : request_exception)
  | KeyError (key : string)
  | TypeError
  | AttributeError.

Inductive outcome (A : Type) : Type :=
  | Returned (a : A)
  | Raised (e : exn).
Arguments Returned {A} a.
Arguments Raised {A} e.

(** ** The transport *)

Record Response : Type := mkResponse {
  status_code : Z;
  (** [None] when the body is not JSON. *)
  body : option pyval
}.

(** What [requests.get(url)] does: raises or returns a response. *)
Inductive get_outcome : Type :=
  | GetRaised (e : request_exception)
  | GetReturned (r : Response).

Definition http_error (r : Response) : bool :=
  (400 <=? status_code r) && (status_code r <? 600).

(** The request failed at the transport: [requests.get] raised, or the
    response has an error status.  The result is the exception that
    reaches the [except] clause. *)
Definition transport_failure (o : get_outcome) : option request_exception :=
  match o with
  | GetRaised e => Some e
  | GetReturned r => if http_error r then Some (HTTPError (status_code r)) else None
  end.

(** The request succeeded and its body is the JSON value returned. *)
Definition delivered (o : get_outcome) : option pyval :=
  match o with
  | GetRaised _ => None
  | GetReturned r => if http_error r then None else body r
  end.

(** ** Logging *)

Inductive level : Type := INFO | WARNING | ERROR.

(** One constructor for each f-string of the module, with the values it
    interpolates. *)
Inductive message : Type :=
  | RetrievedSteamID (username : string) (steam_id : pyval)
  | SteamIDNotFound (username : string) (data : pyval)
  | ErrorRetrievingSteamID (username : string) (e : request_exception)
  | RetrievedAppList
  | ErrorRetrievingAppList (e : request_exception)
  | FoundAppID (game_name : pyval) (app_id : pyval)
  | AppIDNotFound (game_name : pyval).

(** ** The client and the machine it runs on *)

Record SteamAPI : Type := mkSteamAPI {
  api_key : string;
  app_list_cache : pyval
}.

Record machine : Type := mkMachine {
  self : SteamAPI;
  (** URLs passed to [requests.get], oldest first. *)
  sent : list string;
  (** Records passed to [logging], oldest first. *)
  logged : list (level * message)
}.

(** [SteamAPI.__init__] *)
Definition init (key : string) : SteamAPI :=
  {| api_key := key; app_list_cache := PyNone |}.

Definition boot (key : string) : machine :=
  {| self := init key; sent := []; logged := [] |}.

(** The three ways the code changes the machine. *)
Definition requested (url : string) (m : machine) : machine :=
  {| self := self m; sent := sent m ++ [url]; logged := logged m |}.

Definition logged_as (lv : level) (msg : message) (m : machine) : machine :=
  {| self := self m; sent := sent m; logged := logged m ++ [(lv, msg)] |}.

Definition cached (v : pyval) (m : machine) : machine :=
  {| self := {| api_key := api_key (self m); app_list_cache := v |};
     sent := sent m; logged := logged m |}.

(** ** The monad *)

Definition M (A : Type) : Type := machine -> outcome A * machine.

Definition ret {A} (a : A) : M A := fun m => (Returned a, m).

Definition raise {A} (e : exn) : M A := fun m => (Raised e, m).

Definition bind {A B} (c : M A) (k : A -> M B) : M B :=
  fun m =>
    match c m with
    | (Returned a, m') => k a m'
    | (Raised e, m') => (Raised e, m')
    end.

Declare Scope py_scope.
Delimit Scope py_scope with py.
Notation "x <- c ;; k" := (bind c (fun x => k))
  (at level 100, c at next level, right associativity) : py_scope.
Notation "c ;; k" := (bind c (fun _ => k))
  (at level 100, right associativity) : py_scope.

(** [try: body  except requests.RequestException as e: handler e].  Any
    other exception passes through; what [body] did to the machine before
    raising stays done. *)
Definition try_except {A} (body : M A) (handler : request_exception -> M A) : M A :=
  fun m =>
    match body m with
    | (Raised (RequestException e), m') => handler e m'
    | r => r
    end.

Definition lift {A} (o : outcome A) : M A := fun m => (o, m).

(** ** Operations on values *)

Fixpoint dict_get (key : string) (items : list (string * pyval)) : option pyval :=
  match items with
  | [] => None
  | (k, v) :: rest => if String.eqb k key then Some v else dict_get key rest
  end.

(** [v[key]] for a [str] key. *)
Definition getitem (v : pyval) (key : string) : outcome pyval :=
  match v with
  | PyDict items =>
      match dict_get key items with
      | Some x => Returned x
      | None => Raised (KeyError key)
      end
  | _ => Raised TypeError
  end.

(** [v.get(key)] *)
Definition get (v : pyval) (key : string) : outcome pyval :=
  match v with
  | PyDict items =>
      match dict_get key items with
      | Some x => Returned x
      | None => Returned PyNone
      end
  | _ => Raised AttributeError
  end.

(** [iter(v)]: the elements a [for] loop over [v] visits. *)
Definition iterate (v : pyval) : outcome (list pyval) :=
  match v with
  | PyList l => Returned l
  | PyDict items => Returned (map (fun kv => PyStr (fst kv)) items)
  | PyStr s => Returned (map (fun c => PyStr (String c EmptyString)) (String.list_ascii_of_string s))
  | _ => Raised TypeError
  end.

(** [v == ""] *)
Definition eq_empty_str (v : pyval) : bool :=
  match v with
  | PyStr s => String.eqb s ""
  | _ => false
  end.

(** ** The class *)

Definition BASE_URL : string := "http://api.steampowered.com".
Definition APP_LIST_URL : string :=
  "https://api.steampowered.com/ISteamApps/GetAppList/v2/".

Section SteamAPI.

(** [str.lower]. *)
Variable str_lower : string -> string.

(** The network: what the [n]-th call of [requests.get] (counting from
    0) does when it asks for [url]. *)
Variable server : nat -> string -> get_outcome.

Definition requests_get (url : string) : M Response :=
  fun m =>
    match server (length (sent m)) url with
    | GetRaised e => (Raised (RequestException e), requested url m)
    | GetReturned r => (Returned r, requested url m)
    end.

(** [Response.raise_for_status]: [HTTPError] for a client error (400 to
    499) or a server error (500 to 599), nothing for any other status. *)
Definition raise_for_status (r : Response) : M unit :=
  if http_error r
  then raise (RequestException (HTTPError (status_code r)))
  else ret tt.

(** [Response.json] *)
Definition json (r : Response) : M pyval :=
  match body r with
  | Some v => ret v
  | None => raise (RequestException JSONDecodeError)
  end.

Definition logging (lv : level) (msg : message) : M unit :=
  fun m => (Returned tt, logged_as lv msg m).

Definition get_self : M SteamAPI := fun m => (Returned (self m), m).

(** [self.app_list_cache = v] *)
Definition set_app_list_cache (v : pyval) : M unit :=
  fun m => (Returned tt, cached v m).

(** [v.lower()] *)
Definition lower (v : pyval) : outcome string :=
  match v with
  | PyStr s => Returned (str_lower s)
  | _ => Raised AttributeError
  end.

Definition vanity_url (key username : string) : string :=
  BASE_URL ++ "/ISteamUser/ResolveVanityURL/v0001/?key=" ++ key
           ++ "&vanityurl=" ++ username.

Definition get_steam_id (username : string) : M pyval :=
  try_except
    (this <- get_self ;;
     let url := vanity_url (api_key this) username in
     response <- requests_get url ;;
     raise_for_status response ;;
     data <- json response ;;
     r <- lift (getitem data "response") ;;
     steam_id <- lift (get r "steamid") ;;
     if truthy steam_id then
       logging INFO (RetrievedSteamID username steam_id) ;;
       ret steam_id
     else
       logging WARNING (SteamIDNotFound username data) ;;
       ret PyNone)%py
    (fun e =>
       logging ERROR (ErrorRetrievingSteamID username e) ;;
       ret PyNone)%py.

Definition get_app_list : M pyval :=
  try_except
    (this <- get_self ;;
     (if negb (truthy (app_list_cache this)) then
        response <- requests_get APP_LIST_URL ;;
        raise_for_status response ;;
        data <- json response ;;
        applist <- lift (getitem data "applist") ;;
        apps <- lift (getitem applist "apps") ;;
        set_app_list_cache apps ;;
        logging INFO RetrievedAppList
      else ret tt) ;;
     this' <- get_self ;;
     ret (app_list_cache this'))%py
    (fun e =>
       logging ERROR (ErrorRetrievingAppList e) ;;
       ret (PyList []))%py.

(** One step of [{app['name'].lower(): app['appid'] for app in apps}]:
    the key is evaluated before the value. *)
Definition app_dict_step (d : gmap string pyval) (app : pyval)
  : outcome (gmap string pyval) :=
  match getitem app "name" with
  | Raised e => Raised e
  | Returned name =>
      match lower name with
      | Raised e => Raised e
      | Returned key =>
          match getitem app "appid" with
          | Raised e => Raised e
          | Returned appid => Returned (<[key := appid]> d)
          end
      end
  end.

Fixpoint app_dict_from (d : gmap string pyval) (apps : list pyval)
  : outcome (gmap string pyval) :=
  match apps with
  | [] => Returned d
  | app :: rest =>
      match app_dict_step d app with
      | Raised e => Raised e
      | Returned d' => app_dict_from d' rest
      end
  end.

Definition app_dict_of (apps : pyval) : outcome (gmap string pyval) :=
  match iterate apps with
  | Raised e => Raised e
  | Returned l => app_dict_from ∅ l
  end.

(** [d.get(key)] on the comprehension's dict. *)
Definition app_dict_get (d : gmap string pyval) (key : string) : pyval :=
  match d !! key with
  | Some v => v
  | None => PyNone
  end.

Definition find_app_id (game_name : pyval) : M pyval :=
  if negb (truthy game_name) || eq_empty_str game_name then ret PyNone
  else
    (apps <- get_app_list ;;
     app_dict <- lift (app_dict_of apps) ;;
     key <- lift (lower game_name) ;;
     let app_id := app_dict_get app_dict key in
     (if truthy app_id then
        logging INFO (FoundAppID game_name app_id)
      else
        logging WARNING (AppIDNotFound game_name)) ;;
     ret app_id)%py.

(** What the server does with the request each method would make on
    machine [m]. *)
Definition vanity_request (username : string) (m : machine) : get_outcome :=
  server (length (sent m)) (vanity_url (api_key (self m)) username).

Definition applist_request (m : machine) : get_outcome :=
  server (length (sent m)) APP_LIST_URL.

(** The dict the comprehension builds from (name, appid) pairs, starting
    from [d]: each pair is stored under its lowercased name, a later pair
    overwriting an earlier one with the same key. *)
Definition insert_records (recs : list (string * pyval)) (d : gmap string pyval)
  : gmap string pyval :=
  fold_left (fun acc e => <[str_lower (fst e) := snd e]> acc) recs d.

(** A caller's use of the client: a sequence of method calls.  A caller
    may catch what a call raises and go on, so the machine after a call is
    passed to the next one whatever the call's outcome. *)
Inductive call : Type :=
  | GetSteamId (username : string)
  | GetAppList
  | FindAppId (game_name : pyval).

Definition perform (c : call) : M pyval :=
  match c with
  | GetSteamId username => get_steam_id username
  | GetAppList => get_app_list
  | FindAppId game_name => find_app_id game_name
  end.

Fixpoint perform_all (cs : list call) (m : machine) : machine :=
  match cs with
  | [] => m
  | c :: rest => perform_all rest (snd (perform c m))
  end.

End SteamAPI.

(** The number of requests made for the app list so far. *)
Definition fetches (m : machine) : nat :=
  count_occ String.string_dec (sent m) APP_LIST_URL.

(** ** The documented shapes of the two JSON bodies *)

(** [{ "response": { ... } }] *)
Definition vanity_shaped (data : pyval) : bool :=
  match getitem data "response" with
  | Returned (PyDict _) => true
  | _ => false
  end.

(** The fields of an app record [{ "appid": ..., "name": string }]. *)
Definition app_fields (a : pyval) : option (string * pyval) :=
  match getitem a "name", getitem a "appid" with
  | Returned (PyStr name), Returned appid => Some (name, appid)
  | _, _ => None
  end.

(** The (name, appid) pairs of a list of app records, in order; [None]
    when an element is not an app record. *)
Fixpoint app_records (l : list pyval) : option (list (string * pyval)) :=
  match l with
  | [] => Some []
  | a :: rest =>
      match app_fields a, app_records rest with
      | Some e, Some es => Some (e :: es)
      | _, _ => None
      end
  end.

Definition is_app_list (apps : pyval) : bool :=
  match apps with
  | PyList l => match app_records l with Some _ => true | None => false end
  | _ => false
  end.

(** [{ "applist": { "apps": [ app record, ... ] } }] *)
Definition applist_shaped (data : pyval) : bool :=
  match getitem data "applist" with
  | Returned (PyDict items) =>
      match dict_get "apps" items with
      | Some apps => is_app_list apps
      | None => false
      end
  | _ => false
  end.

(** A request that either fails in a way the [except] clause catches
    (the call raises, an error status, a body that is not JSON) or
    delivers a body of the given shape. *)
Definition acceptable (shape : pyval -> bool) (o : get_outcome) : bool :=
  match o with
  | GetRaised _ => true
  | GetReturned r =>
      http_error r || match body r with None => true | Some data => shape data end
  end.

(** A cache that is empty ([None], [[]], ...) or holds a list of app
    records. *)
Definition cache_ok (v : pyval) : bool := negb (truthy v) || is_app_list v.

(** A game name as the docstring has it ([str]), or [None]. *)
Definition str_or_none (g : pyval) : bool :=
  match g with
  | PyNone | PyStr _ => true
  | _ => false
  end.

(** ** What a caller observes of a call *)

(** The call returned a value (it did not raise). *)
Definition returns {A} (r : outcome A * machine) : bool :=
  match fst r with
  | Returned _ => true
  | Raised _ => false
  end.


(** [{ "applist": { "apps": ... } }], whatever [apps] is. *)
Definition has_apps (data : pyval) : bool :=
  match getitem data "applist" with
  | Returned (PyDict items) =>
      match dict_get "apps" items with
      | Some _ => true
      | None => false
      end
  | _ => false
  end.

(** A server that answers every request with a failure the [except]
    clauses catch or with a body of the documented shape for the URL
    asked. *)
Definition well_behaved (server : nat -> string -> get_outcome) : Prop :=
  forall n url,
    acceptable (if String.eqb url APP_LIST_URL then applist_shaped else vanity_shaped)
      (server n url) = true.

(** What a caller may pass as a game name: a string or [None]. *)
Definition call_ok (c : call) : bool :=
  match c with
  | FindAppId g => str_or_none g
  | _ => true
  end.

Section Sequences.

Variable str_lower : string -> string.
Variable server : nat -> string -> get_outcome.

(** Every call of the sequence returns a value. *)
Fixpoint all_return (cs : list call) (m : machine) : bool :=
  match cs with
  | [] => true
  | c :: rest =>
      returns (perform str_lower server c m)
      && all_return rest (snd (perform str_lower server c m))
  end.

End Sequences.

(** ** Test fixtures: an ASCII [str.lower] and scripted servers *)

(** [str.lower] on ASCII text: A to Z go to a to z, every other character
    stays. *)
Definition ascii_lower_char (c : Ascii.ascii) : Ascii.ascii :=
  let n := Ascii.nat_of_ascii c in
  if ((65 <=? n) && (n <=? 90))%nat then Ascii.ascii_of_nat (n + 32) else c.

Fixpoint ascii_lower (s : string) : string :=
  match s with
  | EmptyString => EmptyString
  | String c rest => String (ascii_lower_char c) (ascii_lower rest)
  end.

Fixpoint is_ascii (s : string) : bool :=
  match s with
  | EmptyString => true
  | String c rest => (Ascii.nat_of_ascii c <? 128)%nat && is_ascii rest
  end.

(** A 200 response whose body is the JSON value [v]. *)
Definition ok_json (v : pyval) : get_outcome :=
  GetReturned {| status_code := 200; body := Some v |}.

(** A server that answers every request the same way. *)
Definition always (o : get_outcome) : nat -> string -> get_outcome :=
  fun _ _ => o.

(** A server that plays a script: the [n]-th request gets the [n]-th
    outcome, and the connection fails once the script is over. *)
Definition scripted (script : list get_outcome) : nat -> string -> get_outcome :=
  fun n _ => nth n script (GetRaised ConnectionError).

Definition vanity_body (r : list (string * pyval)) : pyval :=
  PyDict [("response", PyDict r)].

Definition applist_body (apps : pyval) : pyval :=
  PyDict [("applist", PyDict [("apps", apps)])].

Definition app (appid : Z) (name : string) : pyval :=
  PyDict [("appid", PyInt appid); ("name", PyStr name)].

Definition counter_strike : pyval := PyList [app 10 "Counter-Strike"].

(** A server that knows one user and one game. *)
Definition steam : nat -> string -> get_outcome :=
  fun _ url =>
    if String.eqb url APP_LIST_URL
    then ok_json (applist_body counter_strike)
    else ok_json (vanity_body [("steamid", PyStr "76561197960287930")]).

(** A server that is down. *)
Definition unavailable : nat -> string -> get_outcome :=
  always (GetReturned {| status_code := 503; body := None |}).

(** A server that times out, then has no apps to list, then is gone. *)
Definition flaky : nat -> string -> get_outcome :=
  scripted [GetRaised Timeout; ok_json (applist_body (PyList []))].

Definition portals : pyval := PyList [app 400 "Portal"; app 999 "PORTAL"].

(** An app list whose one record has no [name]. *)
Definition nameless_apps : pyval := PyList [PyDict [("appid", PyInt 10)]].

(** The machine of a fresh client after one [get_app_list] against
    [steam]. *)
Definition filled : machine := snd (get_app_list steam (boot "KEY")).

(** * Properties *)

Section Properties.

Variable str_lower : string -> string.
Variable server : nat -> string -> get_outcome.

(** ** What one call of each method does *)

(** [getitem] and [get] raise no [RequestException], so what they raise
    inside a [try] of the module reaches the caller. *)
Lemma getitem_not_caught v key e :
  getitem v key <> Raised (RequestException e).
Proof.
  destruct v; simpl; try discriminate.
  destruct (dict_get key items); discriminate.
Qed.

Lemma get_not_caught v key e :
  get v key <> Raised (RequestException e).
Proof.
  destruct v; simpl; try discriminate.
  destruct (dict_get key items); discriminate.
Qed.

Lemma get_steam_id_failed username m e :
  transport_failure (vanity_request server username m) = Some e ->
  get_steam_id server username m =
    (Returned PyNone,
     logged_as ERROR (ErrorRetrievingSteamID username e)
       (requested (vanity_url (api_key (self m)) username) m)).
Proof.
  unfold vanity_request, get_steam_id, try_except, bind, get_self, requests_get.
  intros H. destruct (server _ _) as [e'|r]; simpl in H.
  - injection H as ->. reflexivity.
  - unfold raise_for_status. destruct (http_error r); [|discriminate].
    injection H as <-. reflexivity.
Qed.

Lemma get_steam_id_not_json username m r :
  vanity_request server username m = GetReturned r ->
  http_error r = false -> body r = None ->
  get_steam_id server username m =
    (Returned PyNone,
     logged_as ERROR (ErrorRetrievingSteamID username JSONDecodeError)
       (requested (vanity_url (api_key (self m)) username) m)).
Proof.
  unfold vanity_request, get_steam_id, try_except, bind, get_self, requests_get.
  intros -> Hs Hb. unfold raise_for_status, json. rewrite Hs, Hb. reflexivity.
Qed.

Lemma get_steam_id_delivered username m data :
  delivered (vanity_request server username m) = Some data ->
  get_steam_id server username m =
    let m1 := requested (vanity_url (api_key (self m)) username) m in
    match getitem data "response" with
    | Raised e => (Raised e, m1)
    | Returned r =>
        match get r "steamid" with
        | Raised e => (Raised e, m1)
        | Returned steam_id =>
            if truthy steam_id
            then (Returned steam_id, logged_as INFO (RetrievedSteamID username steam_id) m1)
            else (Returned PyNone, logged_as WARNING (SteamIDNotFound username data) m1)
        end
    end.
Proof.
  unfold vanity_request, get_steam_id, try_except, bind, get_self, requests_get.
  intros H. destruct (server _ _) as [e'|r]; simpl in H; [discriminate|].
  unfold raise_for_status, json. destruct (http_error r); [discriminate|].
  rewrite H. simpl. unfold lift.
  pose proof (getitem_not_caught data "response") as Hg.
  destruct (getitem data "response") as [resp|[e| | |]]; try reflexivity.
  - pose proof (get_not_caught resp "steamid") as Hs.
    destruct (get resp "steamid") as [sid|[e| | |]]; try reflexivity.
    + destruct (truthy sid); reflexivity.
    + exfalso. exact (Hs e eq_refl).
  - exfalso. exact (Hg e eq_refl).
Qed.

Lemma get_app_list_cached m :
  truthy (app_list_cache (self m)) = true ->
  get_app_list server m = (Returned (app_list_cache (self m)), m).
Proof.
  unfold get_app_list, try_except, bind, get_self. intros ->. reflexivity.
Qed.

Lemma get_app_list_failed m e :
  truthy (app_list_cache (self m)) = false ->
  transport_failure (applist_request server m) = Some e ->
  get_app_list server m =
    (Returned (PyList []),
     logged_as ERROR (ErrorRetrievingAppList e) (requested APP_LIST_URL m)).
Proof.
  unfold applist_request, get_app_list, try_except, bind, get_self, requests_get.
  intros -> H. simpl. destruct (server _ _) as [e'|r]; simpl in H.
  - injection H as ->. reflexivity.
  - unfold raise_for_status. destruct (http_error r); [|discriminate].
    injection H as <-. reflexivity.
Qed.

Lemma get_app_list_not_json m r :
  truthy (app_list_cache (self m)) = false ->
  applist_request server m = GetReturned r ->
  http_error r = false -> body r = None ->
  get_app_list server m =
    (Returned (PyList []),
     logged_as ERROR (ErrorRetrievingAppList JSONDecodeError) (requested APP_LIST_URL m)).
Proof.
  unfold applist_request, get_app_list, try_except, bind, get_self, requests_get.
  intros -> Hr Hs Hb. simpl. rewrite Hr.
  unfold raise_for_status, json. rewrite Hs, Hb. reflexivity.
Qed.

Lemma get_app_list_delivered m data :
  truthy (app_list_cache (self m)) = false ->
  delivered (applist_request server m) = Some data ->
  get_app_list server m =
    let m1 := requested APP_LIST_URL m in
    match getitem data "applist" with
    | Raised e => (Raised e, m1)
    | Returned applist =>
        match getitem applist "apps" with
        | Raised e => (Raised e, m1)
        | Returned apps =>
            (Returned apps, logged_as INFO RetrievedAppList (cached apps m1))
        end
    end.
Proof.
  unfold applist_request, get_app_list, try_except, bind, get_self, requests_get.
  intros -> H. simpl. destruct (server _ _) as [e'|r]; simpl in H; [discriminate|].
  unfold raise_for_status, json. destruct (http_error r); [discriminate|].
  rewrite H. simpl. unfold lift.
  pose proof (getitem_not_caught data "applist") as Hg.
  destruct (getitem data "applist") as [al|[e| | |]]; try reflexivity.
  - pose proof (getitem_not_caught al "apps") as Hs.
    destruct (getitem al "apps") as [apps|[e| | |]]; try reflexivity.
    exfalso. exact (Hs e eq_refl).
  - exfalso. exact (Hg e eq_refl).
Qed.

(** A request goes one of three ways. *)
Lemma request_cases (o : get_outcome) :
  (exists e, transport_failure o = Some e) \/
  (exists r, o = GetReturned r /\ http_error r = false /\ body r = None) \/
  (exists data, delivered o = Some data).
Proof.
  destruct o as [e|r]; simpl.
  - left. eauto.
  - destruct (http_error r) eqn:Hs; [left; eauto|].
    destruct (body r) as [data|] eqn:Hb; [right; right; eauto|].
    right. left. eauto.
Qed.

(** ** What a call leaves in place *)

(** [get_steam_id] makes one request, for the vanity URL, and never
    touches the client. *)
Lemma get_steam_id_frame username m :
  self (snd (get_steam_id server username m)) = self m /\
  sent (snd (get_steam_id server username m))
    = (sent m ++ [vanity_url (api_key (self m)) username])%list.
Proof.
  destruct (request_cases (vanity_request server username m))
    as [[e H]|[(r & Hr & Hs & Hb)|[data H]]].
  - rewrite (get_steam_id_failed _ _ _ H). split; reflexivity.
  - rewrite (get_steam_id_not_json _ _ _ Hr Hs Hb). split; reflexivity.
  - rewrite (get_steam_id_delivered _ _ _ H). simpl.
    destruct (getitem data "response") as [resp|]; [|split; reflexivity].
    destruct (get resp "steamid") as [sid|]; [|split; reflexivity].
    destruct (truthy sid); split; reflexivity.
Qed.

(** With an empty cache, [get_app_list] makes one request, for the app
    list. *)
Lemma get_app_list_sends m :
  truthy (app_list_cache (self m)) = false ->
  sent (snd (get_app_list server m)) = (sent m ++ [APP_LIST_URL])%list.
Proof.
  intros Hc.
  destruct (request_cases (applist_request server m))
    as [[e H]|[(r & Hr & Hs & Hb)|[data H]]].
  - rewrite (get_app_list_failed _ _ Hc H). reflexivity.
  - rewrite (get_app_list_not_json _ _ Hc Hr Hs Hb). reflexivity.
  - rewrite (get_app_list_delivered _ _ Hc H). simpl.
    destruct (getitem data "applist") as [al|]; [|reflexivity].
    destruct (getitem al "apps"); reflexivity.
Qed.

(** When [get_app_list] returns an empty value, the cache is empty
    afterwards. *)
Lemma get_app_list_empty_result m v m' :
  get_app_list server m = (Returned v, m') ->
  truthy v = false ->
  truthy (app_list_cache (self m')) = false.
Proof.
  intros Hget Hv.
  destruct (truthy (app_list_cache (self m))) eqn:Hc.
  - rewrite (get_app_list_cached _ Hc) in Hget.
    injection Hget as <- <-. congruence.
  - destruct (request_cases (applist_request server m))
      as [[e H]|[(r & Hr & Hs & Hb)|[data H]]].
    + rewrite (get_app_list_failed _ _ Hc H) in Hget.
      injection Hget as <- <-. exact Hc.
    + rewrite (get_app_list_not_json _ _ Hc Hr Hs Hb) in Hget.
      injection Hget as <- <-. exact Hc.
    + rewrite (get_app_list_delivered _ _ Hc H) in Hget. simpl in Hget.
      destruct (getitem data "applist") as [al|]; [|discriminate].
      destruct (getitem al "apps"); [|discriminate].
      injection Hget as <- <-. exact Hv.
Qed.

(** With a filled cache, [find_app_id] changes nothing but the log. *)
Lemma find_app_id_cached g m :
  truthy (app_list_cache (self m)) = true ->
  self (snd (find_app_id str_lower server g m)) = self m /\
  sent (snd (find_app_id str_lower server g m)) = sent m.
Proof.
  intros Hc. unfold find_app_id.
  destruct (negb (truthy g) || eq_empty_str g); [split; reflexivity|].
  unfold bind, lift, logging, ret. rewrite (get_app_list_cached _ Hc).
  destruct (app_dict_of str_lower _); [|split; reflexivity].
  destruct (lower str_lower g); [|split; reflexivity].
  destruct (truthy (app_dict_get _ _)); split; reflexivity.
Qed.

Lemma vanity_url_not_app_list key username :
  vanity_url key username <> APP_LIST_URL.
Proof. unfold vanity_url, BASE_URL, APP_LIST_URL. simpl. discriminate. Qed.

Lemma fetches_sent m m' : sent m' = sent m -> fetches m' = fetches m.
Proof. unfold fetches. intros ->. reflexivity. Qed.

(** With a filled cache, no call changes the client or asks for the app
    list. *)
Lemma perform_cached c m :
  truthy (app_list_cache (self m)) = true ->
  self (snd (perform str_lower server c m)) = self m /\
  fetches (snd (perform str_lower server c m)) = fetches m.
Proof.
  intros Hc. destruct c as [username| |g]; simpl.
  - destruct (get_steam_id_frame username m) as [Hself Hsent].
    split; [assumption|]. unfold fetches. rewrite Hsent, count_occ_app.
    rewrite count_occ_cons_neq by apply vanity_url_not_app_list.
    simpl. lia.
  - rewrite (get_app_list_cached _ Hc). split; reflexivity.
  - destruct (find_app_id_cached g m Hc) as [Hself Hsent].
    split; [assumption|]. apply fetches_sent. assumption.
Qed.

Lemma perform_all_cached cs :
  forall m,
    truthy (app_list_cache (self m)) = true ->
    self (perform_all str_lower server cs m) = self m /\
    fetches (perform_all str_lower server cs m) = fetches m.
Proof.
  induction cs as [|c cs IH]; intros m Hc; simpl; [split; reflexivity|].
  destruct (perform_cached c m Hc) as [Hself Hf].
  destruct (IH (snd (perform str_lower server c m))) as [Hself' Hf'].
  - rewrite Hself. assumption.
  - split; congruence.
Qed.

Lemma perform_all_snoc cs c m :
  perform_all str_lower server (cs ++ [c]) m =
  snd (perform str_lower server c (perform_all str_lower server cs m)).
Proof.
  revert m. induction cs as [|c' cs IH]; intros m; simpl; [reflexivity|].
  apply IH.
Qed.

(** ** Resolving a user name *)

Lemma get_steam_id_field username m data r :
  delivered (vanity_request server username m) = Some data ->
  getitem data "response" = Returned (PyDict r) ->
  get_steam_id server username m =
    let m1 := requested (vanity_url (api_key (self m)) username) m in
    match dict_get "steamid" r with
    | Some steam_id =>
        if truthy steam_id
        then (Returned steam_id, logged_as INFO (RetrievedSteamID username steam_id) m1)
        else (Returned PyNone, logged_as WARNING (SteamIDNotFound username data) m1)
    | None => (Returned PyNone, logged_as WARNING (SteamIDNotFound username data) m1)
    end.
Proof.
  intros Hd Hr. rewrite (get_steam_id_delivered _ _ _ Hd), Hr. simpl.
  destruct (dict_get "steamid" r); reflexivity.
Qed.

(** C4, amended: when the request succeeds and the JSON body holds
    [response.steamid = X] for a non-empty string [X], [get_steam_id]
    returns [X] (and logs it at INFO level). *)
Theorem get_steam_id_found :
  forall username m data r X,
    delivered (vanity_request server username m) = Some data ->
    getitem data "response" = Returned (PyDict r) ->
    dict_get "steamid" r = Some (PyStr X) ->
    X <> "" ->
    get_steam_id server username m =
      (Returned (PyStr X),
       logged_as INFO (RetrievedSteamID username (PyStr X))
         (requested (vanity_url (api_key (self m)) username) m)).
Proof.
  intros username m data r X Hd Hr Hs HX.
  rewrite (get_steam_id_field _ _ _ _ Hd Hr), Hs. simpl.
  destruct (String.eqb_spec X ""); [contradiction | reflexivity].
Qed.

(** C6: when the request succeeds and the JSON body is
    [{"response": {}}], or any body whose [response] object has no
    [steamid], [get_steam_id] returns [None]; it raises nothing and logs
    a warning. *)
Theorem get_steam_id_missing :
  forall username m data r,
    delivered (vanity_request server username m) = Some data ->
    getitem data "response" = Returned (PyDict r) ->
    dict_get "steamid" r = None ->
    get_steam_id server username m =
      (Returned PyNone,
       logged_as WARNING (SteamIDNotFound username data)
         (requested (vanity_url (api_key (self m)) username) m)).
Proof.
  intros username m data r Hd Hr Hs.
  rewrite (get_steam_id_field _ _ _ _ Hd Hr), Hs. reflexivity.
Qed.

(** C10: when the request succeeds and the JSON body holds
    [response.steamid = ""], [get_steam_id] returns [None], with the same
    warning as for a body without [steamid]. *)
Theorem get_steam_id_empty_string :
  forall username m data r,
    delivered (vanity_request server username m) = Some data ->
    getitem data "response" = Returned (PyDict r) ->
    dict_get "steamid" r = Some (PyStr "") ->
    get_steam_id server username m =
      (Returned PyNone,
       logged_as WARNING (SteamIDNotFound username data)
         (requested (vanity_url (api_key (self m)) username) m)).
Proof.
  intros username m data r Hd Hr Hs.
  rewrite (get_steam_id_field _ _ _ _ Hd Hr), Hs. reflexivity.
Qed.

(** ** The name-to-appid dict *)

Lemma app_dict_step_fields d a name appid :
  app_fields a = Some (name, appid) ->
  app_dict_step str_lower d a = Returned (<[str_lower name := appid]> d).
Proof.
  unfold app_fields, app_dict_step. intros H.
  destruct (getitem a "name") as [[]|]; try discriminate.
  destruct (getitem a "appid"); try discriminate.
  injection H as -> ->. reflexivity.
Qed.

Lemma app_dict_from_records l :
  forall recs d,
    app_records l = Some recs ->
    app_dict_from str_lower d l = Returned (insert_records str_lower recs d).
Proof.
  induction l as [|a l IH]; intros recs d H; simpl in H.
  - injection H as <-. reflexivity.
  - destruct (app_fields a) as [[name appid]|] eqn:Ha; [|discriminate].
    destruct (app_records l) as [es|] eqn:Hl; [|discriminate].
    injection H as <-. simpl.
    rewrite (app_dict_step_fields _ _ _ _ Ha). apply IH. reflexivity.
Qed.

Lemma insert_records_app r1 r2 d :
  insert_records str_lower (r1 ++ r2) d =
  insert_records str_lower r2 (insert_records str_lower r1 d).
Proof. unfold insert_records. apply fold_left_app. Qed.

(** Pairs stored under other keys leave a key as it was. *)
Lemma insert_records_miss recs :
  forall d key,
    Forall (fun e => str_lower (fst e) <> key) recs ->
    insert_records str_lower recs d !! key = d !! key.
Proof.
  induction recs as [|[n v] recs IH]; intros d key H; [reflexivity|].
  inversion H as [|? ? Hn Hrest]; subst. simpl in *.
  unfold insert_records in *. simpl. rewrite IH by assumption.
  apply lookup_insert_ne. assumption.
Qed.

(** The last pair stored under a key is the one found there. *)
Lemma insert_records_last r1 name appid r2 d :
  Forall (fun e => str_lower (fst e) <> str_lower name) r2 ->
  insert_records str_lower (r1 ++ (name, appid) :: r2) d !! str_lower name
    = Some appid.
Proof.
  intros H. rewrite insert_records_app.
  change (insert_records str_lower ((name, appid) :: r2) ?x)
    with (insert_records str_lower r2 (<[str_lower name := appid]> x)).
  rewrite insert_records_miss by assumption.
  apply lookup_insert_eq.
Qed.

(** Either no pair has the key, or some pair is the last one that has. *)
Lemma last_match (recs : list (string * pyval)) key :
  Forall (fun e => str_lower (fst e) <> key) recs \/
  exists r1 name appid r2,
    recs = (r1 ++ (name, appid) :: r2)%list /\ str_lower name = key /\
    Forall (fun e => str_lower (fst e) <> key) r2.
Proof.
  induction recs as [|[n v] recs [IH|(r1 & name & appid & r2 & -> & Hk & Hr)]].
  - left. constructor.
  - destruct (String.string_dec (str_lower n) key) as [Heq|Hne].
    + right. exists [], n, v, recs. auto.
    + left. constructor; assumption.
  - right. exists ((n, v) :: r1), name, appid, r2. auto.
Qed.

(** ** Looking a game up *)

Lemma app_dict_of_list l recs :
  app_records l = Some recs ->
  app_dict_of str_lower (PyList l) = Returned (insert_records str_lower recs ∅).
Proof. intros H. simpl. apply app_dict_from_records. assumption. Qed.

(** [find_app_id] on a non-empty name, once [get_app_list] has returned a
    list of app records. *)
Lemma find_app_id_run g m l m1 recs :
  g <> "" ->
  get_app_list server m = (Returned (PyList l), m1) ->
  app_records l = Some recs ->
  find_app_id str_lower server (PyStr g) m =
    let app_id := app_dict_get (insert_records str_lower recs ∅) (str_lower g) in
    (Returned app_id,
     if truthy app_id
     then logged_as INFO (FoundAppID (PyStr g) app_id) m1
     else logged_as WARNING (AppIDNotFound (PyStr g)) m1).
Proof.
  intros Hg Hget Hrecs. unfold find_app_id. simpl.
  destruct (String.eqb_spec g ""); [contradiction|]. simpl.
  unfold bind at 1. rewrite Hget.
  unfold bind at 1. unfold lift at 1.
  rewrite (app_dict_of_list _ _ Hrecs).
  unfold bind, lift, logging, ret. simpl.
  destruct (truthy _); reflexivity.
Qed.

(** C3: for a non-empty game name [g] and a fetched list of app records,
    [find_app_id] returns the appid of a record whose lowercased name is
    the lowercased [g], and [None] when there is no such record.  With the
    list [[{"appid":10,"name":"Counter-Strike"}]] and a [str.lower] that
    is the ASCII one on ASCII text, "counter-strike" and "COUNTER-STRIKE"
    give 10 and "NoSuchGame" gives [None]. *)
Theorem find_app_id_case_insensitive :
  forall m m1 l recs,
    get_app_list server m = (Returned (PyList l), m1) ->
    app_records l = Some recs ->
    (forall g, g <> "" ->
       exists r,
         fst (find_app_id str_lower server (PyStr g) m) = Returned r /\
         ((exists name, In (name, r) recs /\ str_lower name = str_lower g) \/
          (r = PyNone /\
           forall name appid, In (name, appid) recs -> str_lower name <> str_lower g))) /\
    ((forall s, is_ascii s = true -> str_lower s = ascii_lower s) ->
     l = [app 10 "Counter-Strike"] ->
     fst (find_app_id str_lower server (PyStr "counter-strike") m) = Returned (PyInt 10) /\
     fst (find_app_id str_lower server (PyStr "COUNTER-STRIKE") m) = Returned (PyInt 10) /\
     fst (find_app_id str_lower server (PyStr "NoSuchGame") m) = Returned PyNone).
Proof.
  intros m m1 l recs Hget Hrecs. split.
  - intros g Hg. rewrite (find_app_id_run _ _ _ _ _ Hg Hget Hrecs). simpl.
    eexists. split; [reflexivity|]. unfold app_dict_get.
    destruct (last_match recs (str_lower g))
      as [Hnone|(r1 & name & appid & r2 & -> & Hk & Hr)].
    + right. rewrite insert_records_miss by assumption.
      rewrite lookup_empty. split; [reflexivity|].
      intros name appid Hin. rewrite List.Forall_forall in Hnone.
      exact (Hnone _ Hin).
    + left. rewrite <- Hk. rewrite insert_records_last by (rewrite Hk; assumption).
      exists name. split; [|reflexivity].
      apply in_or_app. right. apply in_eq.
  - intros Hlow ->.
    pose proof (fun g Hg => find_app_id_run g _ _ _ _ Hg Hget Hrecs) as Hrun.
    vm_compute in Hrecs. injection Hrecs as <-.
    assert (Hcs : str_lower "Counter-Strike" = "counter-strike")
      by (rewrite Hlow; reflexivity).
    unfold insert_records, app_dict_get in Hrun. simpl in Hrun.
    rewrite Hcs in Hrun.
    repeat split.
    + rewrite (Hrun "counter-strike") by discriminate.
      rewrite (Hlow "counter-strike" eq_refl). simpl.
      rewrite lookup_insert_eq. reflexivity.
    + rewrite (Hrun "COUNTER-STRIKE") by discriminate.
      rewrite (Hlow "COUNTER-STRIKE" eq_refl). simpl.
      rewrite lookup_insert_eq. reflexivity.
    + rewrite (Hrun "NoSuchGame") by discriminate.
      rewrite (Hlow "NoSuchGame" eq_refl). simpl.
      rewrite lookup_insert_ne by discriminate. rewrite lookup_empty. reflexivity.
Qed.

(** C7, amended: when two or more records have the same lowercased name,
    the dict built by [find_app_id] maps that name to the appid of the
    last of them, and [find_app_id] of that name, when the name is not
    empty, returns that appid. *)
Theorem duplicate_names_last_wins :
  forall m m1 l r1 n1 v1 r2 n2 v2 r3 g,
    get_app_list server m = (Returned (PyList l), m1) ->
    app_records l = Some (r1 ++ (n1, v1) :: r2 ++ (n2, v2) :: r3)%list ->
    str_lower n1 = str_lower n2 ->
    Forall (fun e => str_lower (fst e) <> str_lower n2) r3 ->
    (exists d, app_dict_of str_lower (PyList l) = Returned d /\
               d !! str_lower n1 = Some v2) /\
    (g <> "" -> str_lower g = str_lower n1 ->
     fst (find_app_id str_lower server (PyStr g) m) = Returned v2).
Proof.
  intros m m1 l r1 n1 v1 r2 n2 v2 r3 g Hget Hrecs Hdup Hlast.
  assert (Hd : insert_records str_lower
                 (r1 ++ (n1, v1) :: r2 ++ (n2, v2) :: r3) ∅ !! str_lower n1
               = Some v2).
  { rewrite Hdup.
    change (r1 ++ (n1, v1) :: r2 ++ (n2, v2) :: r3)%list
      with (r1 ++ ((n1, v1) :: r2) ++ (n2, v2) :: r3)%list.
    rewrite app_assoc. apply insert_records_last. assumption. }
  split.
  - eexists. split; [apply (app_dict_of_list _ _ Hrecs)|exact Hd].
  - intros Hg Hk. rewrite (find_app_id_run _ _ _ _ _ Hg Hget Hrecs). simpl.
    unfold app_dict_get. rewrite Hk, Hd. reflexivity.
Qed.

(** C9, amended: when the query is not empty and the last record whose
    lowercased name is the lowercased query has appid 0, [find_app_id]
    returns the integer 0, not [None], while logging "not found" at
    warning level; for every non-empty query the value returned is what
    the dict lookup gave. *)
Theorem find_app_id_zero :
  forall m m1 l recs g,
    get_app_list server m = (Returned (PyList l), m1) ->
    app_records l = Some recs ->
    g <> "" ->
    (forall r1 name r2,
       recs = (r1 ++ (name, PyInt 0) :: r2)%list ->
       str_lower name = str_lower g ->
       Forall (fun e => str_lower (fst e) <> str_lower g) r2 ->
       find_app_id str_lower server (PyStr g) m =
         (Returned (PyInt 0), logged_as WARNING (AppIDNotFound (PyStr g)) m1)) /\
    (exists d, app_dict_of str_lower (PyList l) = Returned d /\
       fst (find_app_id str_lower server (PyStr g) m)
         = Returned (app_dict_get d (str_lower g))).
Proof.
  intros m m1 l recs g Hget Hrecs Hg. split.
  - intros r1 name r2 -> Hk Hlast.
    rewrite (find_app_id_run _ _ _ _ _ Hg Hget Hrecs). simpl.
    unfold app_dict_get. rewrite <- Hk in *.
    rewrite insert_records_last by assumption. reflexivity.
  - eexists. split; [apply (app_dict_of_list _ _ Hrecs)|].
    rewrite (find_app_id_run _ _ _ _ _ Hg Hget Hrecs). reflexivity.
Qed.

(** ** The app list and its cache *)

(** C5, amended: when the app-list fetch fails at the transport
    ([requests.get] raises, or the response has a 4xx or 5xx status),
    [get_app_list] logs the error, returns an empty list and leaves the
    client, so its cache, as it was; the next call asks the server
    again. *)
Theorem get_app_list_transport_failure :
  forall m e,
    truthy (app_list_cache (self m)) = false ->
    transport_failure (applist_request server m) = Some e ->
    exists m',
      get_app_list server m = (Returned (PyList []), m') /\
      logged m' = (logged m ++ [(ERROR, ErrorRetrievingAppList e)])%list /\
      self m' = self m /\
      sent (snd (get_app_list server m')) = (sent m' ++ [APP_LIST_URL])%list.
Proof.
  intros m e Hc H. eexists. split; [apply (get_app_list_failed _ _ Hc H)|].
  repeat split. apply get_app_list_sends. exact Hc.
Qed.

Lemma empty_results_keep_fetching m :
  truthy (app_list_cache (self m)) = false ->
  forall n,
    (forall i, (i < n)%nat ->
       exists v,
         fst (get_app_list server
                (perform_all str_lower server (replicate i GetAppList) m)) = Returned v /\
         truthy v = false) ->
    truthy (app_list_cache
              (self (perform_all str_lower server (replicate n GetAppList) m))) = false /\
    sent (perform_all str_lower server (replicate n GetAppList) m)
      = (sent m ++ replicate n APP_LIST_URL)%list.
Proof.
  intros Hc. induction n as [|n IH]; intros Hres.
  - simpl. rewrite app_nil_r. split; [exact Hc|reflexivity].
  - destruct IH as [Hcn Hsn]; [intros i Hi; apply Hres; lia|].
    destruct (Hres n) as (v & Hv & Hfalse); [lia|].
    rewrite !replicate_S_end, perform_all_snoc. cbn [perform].
    set (mn := perform_all str_lower server (replicate n GetAppList) m) in *.
    split.
    + destruct (get_app_list server mn) as [o m'] eqn:Hget. simpl in *. subst o.
      exact (get_app_list_empty_result _ _ _ Hget Hfalse).
    + rewrite (get_app_list_sends _ Hcn), Hsn, app_assoc. reflexivity.
Qed.

(** C2: (1) once the cache holds a non-empty value, no later call of any
    method changes the client or asks for the app list, and
    [get_app_list] returns the cached value; (2) when the cache is empty
    and the fetch delivers a non-empty [apps], [get_app_list] returns it,
    and after any later calls the app list has been asked for once more
    than before, the one time, and [get_app_list] still returns [apps];
    (3) while every call so far returned an empty value, the next call of
    [get_app_list] asks the server again. *)
Theorem app_list_memoized :
  forall m,
    (truthy (app_list_cache (self m)) = true ->
     forall cs,
       let m' := perform_all str_lower server cs m in
       self m' = self m /\ fetches m' = fetches m /\
       get_app_list server m' = (Returned (app_list_cache (self m)), m')) /\
    (truthy (app_list_cache (self m)) = false ->
     forall data applist apps,
       delivered (applist_request server m) = Some data ->
       getitem data "applist" = Returned applist ->
       getitem applist "apps" = Returned apps ->
       truthy apps = true ->
       fst (get_app_list server m) = Returned apps /\
       forall cs,
         let m' := perform_all str_lower server cs (snd (get_app_list server m)) in
         app_list_cache (self m') = apps /\ fetches m' = S (fetches m) /\
         get_app_list server m' = (Returned apps, m')) /\
    (truthy (app_list_cache (self m)) = false ->
     forall n,
       (forall i, (i < n)%nat ->
          exists v,
            fst (get_app_list server
                   (perform_all str_lower server (replicate i GetAppList) m)) = Returned v /\
            truthy v = false) ->
       sent (perform_all str_lower server (replicate (S n) GetAppList) m)
         = (sent m ++ replicate (S n) APP_LIST_URL)%list).
Proof.
  intros m. split; [|split].
  - intros Hc cs m'. destruct (perform_all_cached cs m Hc) as [Hself Hf].
    repeat split; [assumption..|].
    rewrite <- Hself. apply get_app_list_cached. unfold m'. rewrite Hself. exact Hc.
  - intros Hc data applist apps Hd Ha Hp Ht.
    rewrite (get_app_list_delivered _ _ Hc Hd), Ha, Hp. simpl.
    split; [reflexivity|]. intros cs.
    set (m1 := logged_as INFO RetrievedAppList (cached apps (requested APP_LIST_URL m))).
    assert (Hc1 : truthy (app_list_cache (self m1)) = true) by exact Ht.
    destruct (perform_all_cached cs m1 Hc1) as [Hself Hf].
    repeat split.
    + rewrite Hself. reflexivity.
    + rewrite Hf. unfold fetches. simpl. rewrite count_occ_app. simpl.
      destruct (String.string_dec APP_LIST_URL APP_LIST_URL); [lia|contradiction].
    + change apps with (app_list_cache (self m1)) at 1. rewrite <- Hself.
      apply get_app_list_cached. rewrite Hself. exact Hc1.
  - intros Hc n Hres.
    destruct (empty_results_keep_fetching m Hc n Hres) as [Hcn Hsn].
    rewrite !replicate_S_end, perform_all_snoc. cbn [perform].
    rewrite (get_app_list_sends _ Hcn), Hsn, app_assoc. reflexivity.
Qed.

(** ** No exception on documented responses *)

Lemma delivered_acceptable shape o data :
  delivered o = Some data -> acceptable shape o = true -> shape data = true.
Proof.
  destruct o as [e|r]; simpl; [discriminate|].
  destruct (http_error r); [discriminate|]. intros ->. simpl. auto.
Qed.

Lemma is_app_list_records apps :
  is_app_list apps = true ->
  exists l recs, apps = PyList l /\ app_records l = Some recs.
Proof.
  destruct apps as [| | | | |l|]; simpl; try discriminate.
  destruct (app_records l) as [recs|] eqn:Hrecs; [eauto|discriminate].
Qed.

Lemma get_app_list_documented m :
  acceptable applist_shaped (applist_request server m) = true ->
  cache_ok (app_list_cache (self m)) = true ->
  exists l recs m1,
    get_app_list server m = (Returned (PyList l), m1) /\
    app_records l = Some recs.
Proof.
  intros Hacc Hok. unfold cache_ok in Hok.
  destruct (truthy (app_list_cache (self m))) eqn:Hc; simpl in Hok.
  - destruct (is_app_list_records _ Hok) as (l & recs & Hl & Hrecs).
    exists l, recs, m. rewrite (get_app_list_cached _ Hc), Hl. auto.
  - destruct (request_cases (applist_request server m))
      as [[e H]|[(r & Hr & Hs & Hb)|[data H]]].
    + exists [], [], (logged_as ERROR (ErrorRetrievingAppList e)
                                (requested APP_LIST_URL m)).
      rewrite (get_app_list_failed _ _ Hc H). auto.
    + exists [], [], (logged_as ERROR (ErrorRetrievingAppList JSONDecodeError)
                                (requested APP_LIST_URL m)).
      rewrite (get_app_list_not_json _ _ Hc Hr Hs Hb). auto.
    + pose proof (delivered_acceptable _ _ _ H Hacc) as Hshape.
      unfold applist_shaped in Hshape.
      rewrite (get_app_list_delivered _ _ Hc H). simpl.
      destruct (getitem data "applist") as [[| | | | | |items]|]; try discriminate.
      simpl. destruct (dict_get "apps" items) as [apps|]; [|discriminate].
      destruct (is_app_list_records _ Hshape) as (l & recs & -> & Hrecs).
      eauto.
Qed.

(** C1, amended: whenever the request either fails in a way the [except]
    clause catches ([requests.get] raises, a 4xx or 5xx status, a body
    that is not JSON) or delivers a body of the documented shape, the
    three methods return a value and raise nothing, for every user name
    and every game name that is a string or [None], on a client whose
    cache is empty or holds a list of app records; a delivered body whose
    [response] object has no [steamid] is reported as [None]. *)
Theorem documented_responses_never_raise :
  forall username g m,
    acceptable vanity_shaped (vanity_request server username m) = true ->
    acceptable applist_shaped (applist_request server m) = true ->
    cache_ok (app_list_cache (self m)) = true ->
    str_or_none g = true ->
    (exists v m', get_steam_id server username m = (Returned v, m')) /\
    (exists v m', get_app_list server m = (Returned v, m')) /\
    (exists v m', find_app_id str_lower server g m = (Returned v, m')) /\
    (forall data r,
       delivered (vanity_request server username m) = Some data ->
       getitem data "response" = Returned (PyDict r) ->
       dict_get "steamid" r = None ->
       fst (get_steam_id server username m) = Returned PyNone).
Proof.
  intros username g m Hvan Happ Hok Hg.
  destruct (get_app_list_documented m Happ Hok) as (l & recs & m1 & Hget & Hrecs).
  split; [|split; [|split]].
  - destruct (request_cases (vanity_request server username m))
      as [[e H]|[(r & Hr & Hs & Hb)|[data H]]].
    + rewrite (get_steam_id_failed _ _ _ H). eauto.
    + rewrite (get_steam_id_not_json _ _ _ Hr Hs Hb). eauto.
    + pose proof (delivered_acceptable _ _ _ H Hvan) as Hshape.
      unfold vanity_shaped in Hshape.
      destruct (getitem data "response") as [[| | | | | |resp]|] eqn:Hresp;
        try discriminate.
      rewrite (get_steam_id_field _ _ _ _ H Hresp). simpl.
      destruct (dict_get "steamid" resp) as [sid|]; [|eauto].
      destruct (truthy sid); eauto.
  - eauto.
  - destruct g as [| | | |s| |]; try discriminate.
    + simpl. unfold ret. eauto.
    + destruct (String.string_dec s "") as [->|Hs].
      * simpl. unfold ret. eauto.
      * rewrite (find_app_id_run _ _ _ _ _ Hs Hget Hrecs). simpl. eauto.
  - intros data r Hd Hr Hsid.
    rewrite (get_steam_id_field _ _ _ _ Hd Hr), Hsid. reflexivity.
Qed.

(** ** Short-circuit on an empty game name *)

(** C8: for the empty string and for [None] as game name, [find_app_id]
    returns [None] and leaves the machine as it was: nothing is requested,
    the cache is untouched, nothing is logged. *)
Theorem find_app_id_empty_or_absent :
  forall m : machine,
    find_app_id str_lower server (PyStr "") m = (Returned PyNone, m) /\
    find_app_id str_lower server PyNone m = (Returned PyNone, m).
Proof. intros; split; reflexivity. Qed.


(** ** Further properties of the three methods *)

Lemma eq_empty_str_truthy g : truthy g = true -> eq_empty_str g = false.
Proof.
  destruct g; simpl; try reflexivity.
  intros H. destruct (String.eqb s ""); [discriminate|reflexivity].
Qed.

(** [find_app_id] past its guard: what it does with the outcome of
    [get_app_list]. *)
Lemma find_app_id_unfold g m :
  truthy g = true ->
  find_app_id str_lower server g m =
    match get_app_list server m with
    | (Raised e, m1) => (Raised e, m1)
    | (Returned apps, m1) =>
        match app_dict_of str_lower apps with
        | Raised e => (Raised e, m1)
        | Returned d =>
            match lower str_lower g with
            | Raised e => (Raised e, m1)
            | Returned key =>
                let app_id := app_dict_get d key in
                (Returned app_id,
                 if truthy app_id
                 then logged_as INFO (FoundAppID g app_id) m1
                 else logged_as WARNING (AppIDNotFound g) m1)
            end
        end
    end.
Proof.
  intros Hg. unfold find_app_id.
  rewrite Hg, (eq_empty_str_truthy _ Hg). simpl.
  unfold bind, lift, logging, ret.
  destruct (get_app_list server m) as [[apps|e] m1]; [|reflexivity].
  destruct (app_dict_of str_lower apps); [|reflexivity].
  destruct (lower str_lower g); [|reflexivity].
  destruct (truthy (app_dict_get _ _)); reflexivity.
Qed.

(** Whatever the request did, exactly one of three things happened. *)
Lemma delivered_none o :
  delivered o = None ->
  (exists e, transport_failure o = Some e) \/
  (exists r, o = GetReturned r /\ http_error r = false /\ body r = None).
Proof.
  intros H. destruct (request_cases o) as [Hf|[Hj|[data Hd]]]; auto. congruence.
Qed.

(** X1: when no JSON body is delivered ([requests.get] raised, the status
    is 4xx or 5xx, or the body is not JSON), [get_steam_id] returns
    [None], writes one ERROR record and leaves the client as it was. *)
Theorem get_steam_id_nothing_delivered :
  forall username m,
    delivered (vanity_request server username m) = None ->
    exists e,
      get_steam_id server username m =
        (Returned PyNone,
         logged_as ERROR (ErrorRetrievingSteamID username e)
           (requested (vanity_url (api_key (self m)) username) m)).
Proof.
  intros username m H.
  destruct (delivered_none _ H) as [[e He]|(r & Hr & Hs & Hb)].
  - exists e. apply get_steam_id_failed. exact He.
  - exists JSONDecodeError. apply (get_steam_id_not_json _ _ _ Hr Hs Hb).
Qed.

(** X2: [get_steam_id] returns a value exactly when the request failed
    in a way the [except] clause catches or delivered a body with a
    [response] object; on any other body it raises. *)
Theorem get_steam_id_returns_iff :
  forall username m,
    returns (get_steam_id server username m)
      = acceptable vanity_shaped (vanity_request server username m).
Proof.
  intros username m.
  destruct (request_cases (vanity_request server username m))
    as [[e H]|[(r & Hr & Hs & Hb)|[data H]]].
  - rewrite (get_steam_id_failed _ _ _ H).
    destruct (vanity_request server username m) as [e'|r]; simpl in *; [reflexivity|].
    destruct (http_error r); [reflexivity|discriminate].
  - rewrite (get_steam_id_not_json _ _ _ Hr Hs Hb), Hr. simpl.
    rewrite Hs, Hb. reflexivity.
  - rewrite (get_steam_id_delivered _ _ _ H).
    destruct (vanity_request server username m) as [e'|r]; simpl in H; [discriminate|].
    simpl. destruct (http_error r); [discriminate|]. rewrite H. simpl.
    unfold vanity_shaped.
    destruct (getitem data "response") as [[| | | | | |resp]|]; try reflexivity.
    simpl. destruct (dict_get "steamid" resp) as [sid|]; [|reflexivity].
    destruct (truthy sid); reflexivity.
Qed.

(** X3: what [get_steam_id] returns is [None] or a truthy value, never
    [""], [0] or another empty value; it is truthy exactly when the
    record written is the INFO one carrying it. *)
Theorem get_steam_id_none_or_truthy :
  forall username m v m',
    get_steam_id server username m = (Returned v, m') ->
    (v = PyNone /\
     exists lv msg,
       logged m' = (logged m ++ [(lv, msg)])%list /\ (lv = WARNING \/ lv = ERROR)) \/
    (truthy v = true /\
     logged m' = (logged m ++ [(INFO, RetrievedSteamID username v)])%list).
Proof.
  intros username m v m' Hrun.
  destruct (request_cases (vanity_request server username m))
    as [[e H]|[(r & Hr & Hs & Hb)|[data H]]].
  - rewrite (get_steam_id_failed _ _ _ H) in Hrun. injection Hrun as <- <-.
    left. split; [reflexivity|]. simpl. eauto.
  - rewrite (get_steam_id_not_json _ _ _ Hr Hs Hb) in Hrun. injection Hrun as <- <-.
    left. split; [reflexivity|]. simpl. eauto.
  - rewrite (get_steam_id_delivered _ _ _ H) in Hrun. simpl in Hrun.
    destruct (getitem data "response") as [resp|]; [|discriminate].
    destruct (get resp "steamid") as [sid|]; [|discriminate].
    destruct (truthy sid) eqn:Hsid; injection Hrun as <- <-.
    + right. split; [exact Hsid|reflexivity].
    + left. split; [reflexivity|]. simpl. eauto.
Qed.

(** X4: [get_app_list] returns a value exactly when the cache is filled,
    or the request failed in a way the [except] clause catches, or the
    body delivered has [applist.apps]; the type of [apps] is not
    checked. *)
Theorem get_app_list_returns_iff :
  forall m,
    returns (get_app_list server m)
      = truthy (app_list_cache (self m))
        || acceptable has_apps (applist_request server m).
Proof.
  intros m. destruct (truthy (app_list_cache (self m))) eqn:Hc.
  - rewrite (get_app_list_cached _ Hc). reflexivity.
  - simpl.
    destruct (request_cases (applist_request server m))
      as [[e H]|[(r & Hr & Hs & Hb)|[data H]]].
    + rewrite (get_app_list_failed _ _ Hc H).
      destruct (applist_request server m) as [e'|r]; simpl in *; [reflexivity|].
      destruct (http_error r); [reflexivity|discriminate].
    + rewrite (get_app_list_not_json _ _ Hc Hr Hs Hb), Hr. simpl.
      rewrite Hs, Hb. reflexivity.
    + rewrite (get_app_list_delivered _ _ Hc H).
      destruct (applist_request server m) as [e'|r]; simpl in H; [discriminate|].
      simpl. destruct (http_error r); [discriminate|]. rewrite H. simpl.
      unfold has_apps.
      destruct (getitem data "applist") as [[| | | | | |items]|]; try reflexivity.
      simpl. destruct (dict_get "apps" items); reflexivity.
Qed.

(** *** No transport error reaches the caller *)








Lemma find_app_id_falsy g m :
  truthy g = false -> find_app_id str_lower server g m = (Returned PyNone, m).
Proof. intros Hg. unfold find_app_id. rewrite Hg. reflexivity. Qed.


(** *** Requests made by one call *)

Lemma find_app_id_frame g m :
  truthy g = true ->
  self (snd (find_app_id str_lower server g m)) = self (snd (get_app_list server m)) /\
  sent (snd (find_app_id str_lower server g m)) = sent (snd (get_app_list server m)).
Proof.
  intros Hg. rewrite (find_app_id_unfold _ _ Hg).
  destruct (get_app_list server m) as [[apps|e1] m1]; simpl; [|split; reflexivity].
  destruct (app_dict_of str_lower apps); [|split; reflexivity].
  destruct (lower str_lower g); [|split; reflexivity].
  simpl. destruct (truthy (app_dict_get _ _)); split; reflexivity.
Qed.

(** X6: the requests one call makes.  [get_steam_id] makes one, for the
    vanity URL; [get_app_list] makes one, for the app list, when the
    cache is empty and none otherwise; [find_app_id] makes that one when
    the game name is truthy and the cache is empty and none otherwise.
    No call makes a second request: nothing is retried. *)
Theorem requests_of_call :
  forall c m,
    sent (snd (perform str_lower server c m)) =
      match c with
      | GetSteamId username =>
          (sent m ++ [vanity_url (api_key (self m)) username])%list
      | GetAppList =>
          if truthy (app_list_cache (self m)) then sent m
          else (sent m ++ [APP_LIST_URL])%list
      | FindAppId g =>
          if truthy g && negb (truthy (app_list_cache (self m)))
          then (sent m ++ [APP_LIST_URL])%list
          else sent m
      end.
Proof.
  intros [username| |g] m; simpl.
  - apply get_steam_id_frame.
  - destruct (truthy (app_list_cache (self m))) eqn:Hc.
    + rewrite (get_app_list_cached _ Hc). reflexivity.
    + apply get_app_list_sends. exact Hc.
  - destruct (truthy g) eqn:Hg; simpl.
    + destruct (find_app_id_frame g m Hg) as [_ ->].
      destruct (truthy (app_list_cache (self m))) eqn:Hc; simpl.
      * rewrite (get_app_list_cached _ Hc). reflexivity.
      * apply get_app_list_sends. exact Hc.
    + rewrite (find_app_id_falsy _ _ Hg). reflexivity.
Qed.

(** *** The key *)

Lemma get_app_list_api_key m :
  api_key (self (snd (get_app_list server m))) = api_key (self m).
Proof.
  destruct (truthy (app_list_cache (self m))) eqn:Hc.
  - rewrite (get_app_list_cached _ Hc). reflexivity.
  - destruct (request_cases (applist_request server m))
      as [[e H]|[(r & Hr & Hs & Hb)|[data H]]].
    + rewrite (get_app_list_failed _ _ Hc H). reflexivity.
    + rewrite (get_app_list_not_json _ _ Hc Hr Hs Hb). reflexivity.
    + rewrite (get_app_list_delivered _ _ Hc H). simpl.
      destruct (getitem data "applist") as [al|]; [|reflexivity].
      destruct (getitem al "apps"); reflexivity.
Qed.

Lemma perform_api_key c m :
  api_key (self (snd (perform str_lower server c m))) = api_key (self m).
Proof.
  destruct c as [username| |g]; simpl.
  - destruct (get_steam_id_frame username m) as [-> _]. reflexivity.
  - apply get_app_list_api_key.
  - destruct (truthy g) eqn:Hg.
    + destruct (find_app_id_frame g m Hg) as [-> _]. apply get_app_list_api_key.
    + rewrite (find_app_id_falsy _ _ Hg). reflexivity.
Qed.

(** X7: the API key given at construction is the key of the client after
    any sequence of calls, whatever they returned or raised. *)
Theorem api_key_kept :
  forall cs key,
    api_key (self (perform_all str_lower server cs (boot key))) = key.
Proof.
  intros cs key.
  assert (H : forall m, api_key (self (perform_all str_lower server cs m))
                        = api_key (self m)).
  { induction cs as [|c cs IH]; intros m; simpl; [reflexivity|].
    rewrite IH. apply perform_api_key. }
  rewrite H. reflexivity.
Qed.

(** *** Lookups *)

Lemma truthy_str g : g <> "" -> truthy (PyStr g) = true.
Proof. intros Hg. simpl. destruct (String.eqb_spec g ""); [contradiction|reflexivity]. Qed.

(** X8: two non-empty queries with the same lowercased form give the
    same outcome, a value or an exception, and leave the same client and
    the same requests behind, on any machine and for any server. *)
Theorem find_app_id_ignores_query_case :
  forall g1 g2 m,
    g1 <> "" -> g2 <> "" -> str_lower g1 = str_lower g2 ->
    fst (find_app_id str_lower server (PyStr g1) m)
      = fst (find_app_id str_lower server (PyStr g2) m) /\
    self (snd (find_app_id str_lower server (PyStr g1) m))
      = self (snd (find_app_id str_lower server (PyStr g2) m)) /\
    sent (snd (find_app_id str_lower server (PyStr g1) m))
      = sent (snd (find_app_id str_lower server (PyStr g2) m)).
Proof.
  intros g1 g2 m H1 H2 Heq.
  rewrite (find_app_id_unfold _ _ (truthy_str _ H1)).
  rewrite (find_app_id_unfold _ _ (truthy_str _ H2)).
  destruct (get_app_list server m) as [[apps|e] m1]; [|repeat split].
  destruct (app_dict_of str_lower apps) as [d|e]; [|repeat split].
  simpl. rewrite Heq.
  destruct (truthy (app_dict_get d (str_lower g2))); repeat split.
Qed.

Lemma find_app_id_cached_same g m m' :
  truthy (app_list_cache (self m)) = true ->
  self m' = self m ->
  fst (find_app_id str_lower server g m') = fst (find_app_id str_lower server g m).
Proof.
  intros Hc Hself.
  assert (Hc' : truthy (app_list_cache (self m')) = true) by (rewrite Hself; exact Hc).
  destruct (truthy g) eqn:Hg.
  - rewrite !(find_app_id_unfold _ _ Hg).
    rewrite (get_app_list_cached _ Hc), (get_app_list_cached _ Hc'), Hself.
    destruct (app_dict_of str_lower _); [|reflexivity].
    destruct (lower str_lower g); reflexivity.
  - rewrite !(find_app_id_falsy _ _ Hg). reflexivity.
Qed.

(** X9: once the cache is filled, the outcome of [find_app_id] for a
    given name, a value or an exception, is the same after any sequence
    of calls, whatever the server answers in between. *)
Theorem find_app_id_stable :
  forall m cs g,
    truthy (app_list_cache (self m)) = true ->
    fst (find_app_id str_lower server g (perform_all str_lower server cs m))
      = fst (find_app_id str_lower server g m).
Proof.
  intros m cs g Hc. apply find_app_id_cached_same; [exact Hc|].
  apply perform_all_cached. exact Hc.
Qed.

(** X10: [get_app_list] caches whatever non-empty [apps] the body holds,
    unchecked.  When [apps] is not a well-formed list of records (the
    comprehension raises [e] on it), [get_app_list] still returns it,
    and from then on every [find_app_id] with a truthy name raises [e];
    the app list is never asked for again. *)
Theorem malformed_apps_stay_cached :
  forall m data applist apps e,
    truthy (app_list_cache (self m)) = false ->
    delivered (applist_request server m) = Some data ->
    getitem data "applist" = Returned applist ->
    getitem applist "apps" = Returned apps ->
    truthy apps = true ->
    app_dict_of str_lower apps = Raised e ->
    fst (get_app_list server m) = Returned apps /\
    forall cs g,
      truthy g = true ->
      let m' := perform_all str_lower server cs (snd (get_app_list server m)) in
      fst (find_app_id str_lower server g m') = Raised e /\
      fetches m' = S (fetches m).
Proof.
  intros m data applist apps e Hc Hd Ha Hp Ht He.
  rewrite (get_app_list_delivered _ _ Hc Hd), Ha, Hp. simpl.
  split; [reflexivity|]. intros cs g Hg.
  set (m1 := logged_as INFO RetrievedAppList (cached apps (requested APP_LIST_URL m))).
  assert (Hc1 : truthy (app_list_cache (self m1)) = true) by exact Ht.
  destruct (perform_all_cached cs m1 Hc1) as [Hself Hf]. split.
  - rewrite (find_app_id_cached_same g m1 _ Hc1 Hself).
    rewrite (find_app_id_unfold _ _ Hg), (get_app_list_cached _ Hc1). simpl.
    rewrite He. reflexivity.
  - rewrite Hf. unfold fetches. simpl. rewrite count_occ_app. simpl.
    destruct (String.string_dec APP_LIST_URL APP_LIST_URL); [lia|contradiction].
Qed.

(** X11: a failed fetch looks like a miss.  With an empty cache and a
    transport failure, [find_app_id] of any non-empty name returns
    [None]; the log gets the ERROR record of [get_app_list] and then the
    "not found" warning, and the cache stays empty. *)
Theorem find_app_id_fetch_failed :
  forall g m e,
    g <> "" ->
    truthy (app_list_cache (self m)) = false ->
    transport_failure (applist_request server m) = Some e ->
    find_app_id str_lower server (PyStr g) m =
      (Returned PyNone,
       logged_as WARNING (AppIDNotFound (PyStr g))
         (logged_as ERROR (ErrorRetrievingAppList e) (requested APP_LIST_URL m))).
Proof.
  intros g m e Hg Hc Hf.
  rewrite (find_app_id_run g m [] _ [] Hg (get_app_list_failed _ _ Hc Hf) eq_refl).
  unfold insert_records, app_dict_get. simpl. rewrite lookup_empty. reflexivity.
Qed.

(** *** What a call leaves behind *)

(** X12: when [get_steam_id] or [get_app_list] raises, the request it
    made is the only trace: the client is as before and nothing is
    logged. *)
Theorem raising_leaves_no_log :
  forall username m e m',
    (get_steam_id server username m = (Raised e, m') ->
     m' = requested (vanity_url (api_key (self m)) username) m) /\
    (get_app_list server m = (Raised e, m') ->
     m' = requested APP_LIST_URL m).
Proof.
  intros username m e m'. split; intros Hrun.
  - destruct (request_cases (vanity_request server username m))
      as [[e1 H]|[(r & Hr & Hs & Hb)|[data H]]].
    + rewrite (get_steam_id_failed _ _ _ H) in Hrun. discriminate.
    + rewrite (get_steam_id_not_json _ _ _ Hr Hs Hb) in Hrun. discriminate.
    + rewrite (get_steam_id_delivered _ _ _ H) in Hrun. simpl in Hrun.
      destruct (getitem data "response") as [resp|]; [|congruence].
      destruct (get resp "steamid") as [sid|]; [|congruence].
      destruct (truthy sid); discriminate.
  - destruct (truthy (app_list_cache (self m))) eqn:Hc.
    + rewrite (get_app_list_cached _ Hc) in Hrun. discriminate.
    + destruct (request_cases (applist_request server m))
        as [[e1 H]|[(r & Hr & Hs & Hb)|[data H]]].
      * rewrite (get_app_list_failed _ _ Hc H) in Hrun. discriminate.
      * rewrite (get_app_list_not_json _ _ Hc Hr Hs Hb) in Hrun. discriminate.
      * rewrite (get_app_list_delivered _ _ Hc H) in Hrun. simpl in Hrun.
        destruct (getitem data "applist") as [al|]; [|congruence].
        destruct (getitem al "apps"); [discriminate|congruence].
Qed.

(** X13: what [get_app_list] returns is the cache as it stands after the
    call, except after a caught failure, when it is a fresh empty list
    and the client is as before. *)
Theorem get_app_list_returns_cache :
  forall m v m',
    get_app_list server m = (Returned v, m') ->
    v = app_list_cache (self m') \/
    (v = PyList [] /\ self m' = self m /\
     exists e, logged m' = (logged m ++ [(ERROR, ErrorRetrievingAppList e)])%list).
Proof.
  intros m v m' Hrun.
  destruct (truthy (app_list_cache (self m))) eqn:Hc.
  - rewrite (get_app_list_cached _ Hc) in Hrun. injection Hrun as <- <-. left. reflexivity.
  - destruct (request_cases (applist_request server m))
      as [[e1 H]|[(r & Hr & Hs & Hb)|[data H]]].
    + rewrite (get_app_list_failed _ _ Hc H) in Hrun. injection Hrun as <- <-.
      right. repeat split. eauto.
    + rewrite (get_app_list_not_json _ _ Hc Hr Hs Hb) in Hrun. injection Hrun as <- <-.
      right. repeat split. eauto.
    + rewrite (get_app_list_delivered _ _ Hc H) in Hrun. simpl in Hrun.
      destruct (getitem data "applist") as [al|]; [|discriminate].
      destruct (getitem al "apps"); [|discriminate].
      injection Hrun as <- <-. left. reflexivity.
Qed.


(** *** A server that keeps to the documented shapes *)

Lemma well_behaved_vanity n key username :
  well_behaved server ->
  acceptable vanity_shaped (server n (vanity_url key username)) = true.
Proof.
  intros Hw. specialize (Hw n (vanity_url key username)).
  destruct (String.eqb_spec (vanity_url key username) APP_LIST_URL) as [Heq|_];
    [|exact Hw].
  exfalso. exact (vanity_url_not_app_list _ _ Heq).
Qed.

Lemma well_behaved_applist n :
  well_behaved server ->
  acceptable applist_shaped (server n APP_LIST_URL) = true.
Proof.
  intros Hw. specialize (Hw n APP_LIST_URL).
  rewrite String.eqb_refl in Hw. exact Hw.
Qed.

Lemma get_steam_id_returns_ok username m :
  acceptable vanity_shaped (vanity_request server username m) = true ->
  returns (get_steam_id server username m) = true.
Proof.
  intros Hacc.
  destruct (request_cases (vanity_request server username m))
    as [[e H]|[(r & Hr & Hs & Hb)|[data H]]].
  - rewrite (get_steam_id_failed _ _ _ H). reflexivity.
  - rewrite (get_steam_id_not_json _ _ _ Hr Hs Hb). reflexivity.
  - pose proof (delivered_acceptable _ _ _ H Hacc) as Hshape.
    unfold vanity_shaped in Hshape.
    destruct (getitem data "response") as [[| | | | | |resp]|] eqn:Hresp;
      try discriminate.
    rewrite (get_steam_id_field _ _ _ _ H Hresp). simpl.
    destruct (dict_get "steamid" resp) as [sid|]; [|reflexivity].
    destruct (truthy sid); reflexivity.
Qed.

Lemma get_app_list_ok m :
  acceptable applist_shaped (applist_request server m) = true ->
  cache_ok (app_list_cache (self m)) = true ->
  exists l recs m1,
    get_app_list server m = (Returned (PyList l), m1) /\
    app_records l = Some recs /\
    cache_ok (app_list_cache (self m1)) = true.
Proof.
  intros Hacc Hok. pose proof Hok as Hok'. unfold cache_ok in Hok.
  destruct (truthy (app_list_cache (self m))) eqn:Hc; simpl in Hok.
  - destruct (is_app_list_records _ Hok) as (l & recs & Hl & Hrecs).
    exists l, recs, m. rewrite (get_app_list_cached _ Hc).
    split; [rewrite Hl; reflexivity|]. split; [exact Hrecs|exact Hok'].
  - destruct (request_cases (applist_request server m))
      as [[e H]|[(r & Hr & Hs & Hb)|[data H]]].
    + eexists [], [], _. rewrite (get_app_list_failed _ _ Hc H).
      split; [reflexivity|]. split; [reflexivity|exact Hok'].
    + eexists [], [], _. rewrite (get_app_list_not_json _ _ Hc Hr Hs Hb).
      split; [reflexivity|]. split; [reflexivity|exact Hok'].
    + pose proof (delivered_acceptable _ _ _ H Hacc) as Hshape.
      unfold applist_shaped in Hshape.
      rewrite (get_app_list_delivered _ _ Hc H). simpl.
      destruct (getitem data "applist") as [[| | | | | |items]|]; try discriminate.
      simpl. destruct (dict_get "apps" items) as [apps|]; [|discriminate].
      destruct (is_app_list_records _ Hshape) as (l & recs & -> & Hrecs).
      eexists l, recs, _. split; [reflexivity|]. split; [exact Hrecs|].
      unfold cache_ok. simpl. rewrite Hrecs. apply orb_true_r.
Qed.

Lemma perform_ok c m :
  well_behaved server ->
  cache_ok (app_list_cache (self m)) = true ->
  call_ok c = true ->
  returns (perform str_lower server c m) = true /\
  cache_ok (app_list_cache (self (snd (perform str_lower server c m)))) = true.
Proof.
  intros Hw Hok Hc. destruct c as [username| |g]; simpl.
  - split.
    + apply get_steam_id_returns_ok. apply well_behaved_vanity. exact Hw.
    + destruct (get_steam_id_frame username m) as [-> _]. exact Hok.
  - destruct (get_app_list_ok m (well_behaved_applist _ Hw) Hok)
      as (l & recs & m1 & -> & _ & Hok1).
    split; [reflexivity|exact Hok1].
  - destruct (truthy g) eqn:Hg.
    + destruct (get_app_list_ok m (well_behaved_applist _ Hw) Hok)
        as (l & recs & m1 & Hget & Hrecs & Hok1).
      destruct (find_app_id_frame g m Hg) as [Hself _].
      rewrite Hself, Hget. split; [|exact Hok1].
      rewrite (find_app_id_unfold _ _ Hg), Hget, (app_dict_of_list _ _ Hrecs).
      destruct g; simpl in *; try discriminate. reflexivity.
    + rewrite (find_app_id_falsy _ _ Hg). split; [reflexivity|exact Hok].
Qed.

(** X15: against a server that keeps to the documented shapes, or fails
    in a way the [except] clauses catch, no call of any sequence raises,
    for every sequence whose game names are strings or [None], from any
    client whose cache is empty or a list of app records. *)
Theorem well_behaved_server_never_raises :
  well_behaved server ->
  forall cs m,
    cache_ok (app_list_cache (self m)) = true ->
    forallb call_ok cs = true ->
    all_return str_lower server cs m = true.
Proof.
  intros Hw. induction cs as [|c cs IH]; intros m Hok Hcs; [reflexivity|].
  simpl in Hcs. apply andb_prop in Hcs as [Hc Hcs].
  destruct (perform_ok c m Hw Hok Hc) as [Hret Hok1].
  simpl. rewrite Hret. simpl. apply IH; assumption.
Qed.

(** *** The URL of the user lookup *)

Lemma string_append_assoc (s1 s2 s3 : string) :
  (s1 ++ s2) ++ s3 = s1 ++ s2 ++ s3.
Proof.
  induction s1 as [|c s1 IH]; [reflexivity|].
  change (String c ((s1 ++ s2) ++ s3) = String c (s1 ++ s2 ++ s3)).
  rewrite IH. reflexivity.
Qed.

(** The result of [get_steam_id] depends on the server's answer alone. *)
Lemma get_steam_id_same_answer u1 m1 u2 m2 :
  vanity_request server u1 m1 = vanity_request server u2 m2 ->
  fst (get_steam_id server u1 m1) = fst (get_steam_id server u2 m2).
Proof.
  intros Heq.
  destruct (request_cases (vanity_request server u1 m1))
    as [[e H]|[(r & Hr & Hs & Hb)|[data H]]].
  - rewrite (get_steam_id_failed _ _ _ H). rewrite Heq in H.
    rewrite (get_steam_id_failed _ _ _ H). reflexivity.
  - rewrite (get_steam_id_not_json _ _ _ Hr Hs Hb). rewrite Heq in Hr.
    rewrite (get_steam_id_not_json _ _ _ Hr Hs Hb). reflexivity.
  - rewrite (get_steam_id_delivered _ _ _ H). rewrite Heq in H.
    rewrite (get_steam_id_delivered _ _ _ H). simpl.
    destruct (getitem data "response") as [resp|]; [|reflexivity].
    destruct (get resp "steamid") as [sid|]; [|reflexivity].
    destruct (truthy sid); reflexivity.
Qed.

(** X16: the user name goes into the URL unescaped.  A user name of the
    form [u&vanityurl=v] on a client with key [k] makes the very request
    that the user name [v] makes on a client with key [k&vanityurl=u],
    and so gets the same result. *)
Theorem username_is_not_escaped :
  forall k u v m1 m2,
    api_key (self m1) = k ->
    api_key (self m2) = k ++ "&vanityurl=" ++ u ->
    length (sent m1) = length (sent m2) ->
    vanity_url (api_key (self m1)) (u ++ "&vanityurl=" ++ v)
      = vanity_url (api_key (self m2)) v /\
    fst (get_steam_id server (u ++ "&vanityurl=" ++ v) m1)
      = fst (get_steam_id server v m2).
Proof.
  intros k u v m1 m2 H1 H2 Hlen.
  assert (Hurl : vanity_url (api_key (self m1)) (u ++ "&vanityurl=" ++ v)
                 = vanity_url (api_key (self m2)) v).
  { rewrite H1, H2. unfold vanity_url.
    rewrite !string_append_assoc. reflexivity. }
  split; [exact Hurl|].
  apply get_steam_id_same_answer. unfold vanity_request.
  rewrite Hurl, Hlen. reflexivity.
Qed.

End Properties.

(** * The theorems at concrete inputs *)

(** On a fresh client talking to [steam], the three methods return. *)
Lemma documented_responses_never_raise_at_steam :
  (exists v m', get_steam_id steam "gabe" (boot "KEY") = (Returned v, m')) /\
  (exists v m', get_app_list steam (boot "KEY") = (Returned v, m')) /\
  (exists v m',
     find_app_id ascii_lower steam (PyStr "Counter-Strike") (boot "KEY")
       = (Returned v, m')).
Proof.
  destruct (documented_responses_never_raise ascii_lower steam
              "gabe" (PyStr "Counter-Strike") (boot "KEY")
              eq_refl eq_refl eq_refl eq_refl) as (Hid & Hlist & Hfind & _).
  auto.
Defined.

(** After one fetch from [steam], four more calls leave the count of
    app-list requests at one and the cache in place; three calls to
    [flaky], each with an empty result, make three requests. *)
Lemma app_list_memoized_at_steam :
  fetches
    (perform_all ascii_lower steam
       [GetAppList; FindAppId (PyStr "counter-strike"); GetSteamId "gabe"; GetAppList]
       (snd (get_app_list steam (boot "KEY")))) = 1%nat /\
  app_list_cache
    (self (perform_all ascii_lower unavailable
             [GetAppList; FindAppId (PyStr "portal"); GetSteamId "gabe"]
             (snd (get_app_list steam (boot "KEY"))))) = counter_strike /\
  sent (perform_all ascii_lower flaky (replicate 3 GetAppList) (boot "KEY"))
    = [APP_LIST_URL; APP_LIST_URL; APP_LIST_URL].
Proof.
  destruct (app_list_memoized ascii_lower steam (boot "KEY")) as (_ & Hfill & _).
  destruct (app_list_memoized ascii_lower unavailable
              (snd (get_app_list steam (boot "KEY")))) as (Hkept & _ & _).
  destruct (app_list_memoized ascii_lower flaky (boot "KEY")) as (_ & _ & Hempty).
  split; [|split].
  - destruct (Hfill eq_refl (applist_body counter_strike)
                (PyDict [("apps", counter_strike)]) counter_strike
                eq_refl eq_refl eq_refl eq_refl) as [_ Hlater].
    destruct (Hlater [GetAppList; FindAppId (PyStr "counter-strike");
                      GetSteamId "gabe"; GetAppList]) as (_ & Hf & _).
    exact Hf.
  - destruct (Hkept eq_refl [GetAppList; FindAppId (PyStr "portal");
                             GetSteamId "gabe"]) as (Hself & _ & _).
    rewrite Hself. reflexivity.
  - apply (Hempty eq_refl 2%nat). intros i Hi.
    exists (PyList []).
    destruct i as [|[|i]]; [split; reflexivity | split; reflexivity | lia].
Defined.

(** The three lookups of the specification, on a fresh client. *)
Lemma find_app_id_case_insensitive_at_counter_strike :
  fst (find_app_id ascii_lower steam (PyStr "counter-strike") (boot "KEY"))
    = Returned (PyInt 10) /\
  fst (find_app_id ascii_lower steam (PyStr "COUNTER-STRIKE") (boot "KEY"))
    = Returned (PyInt 10) /\
  fst (find_app_id ascii_lower steam (PyStr "NoSuchGame") (boot "KEY"))
    = Returned PyNone.
Proof.
  destruct (find_app_id_case_insensitive ascii_lower steam (boot "KEY")
              (logged_as INFO RetrievedAppList
                 (cached counter_strike (requested APP_LIST_URL (boot "KEY"))))
              [app 10 "Counter-Strike"] [("Counter-Strike", PyInt 10)]
              eq_refl eq_refl) as [_ Hcs].
  apply Hcs; [intros s _; reflexivity | reflexivity].
Defined.

(** [steam] knows [gabe]. *)
Lemma get_steam_id_found_at_gabe :
  fst (get_steam_id steam "gabe" (boot "KEY"))
    = Returned (PyStr "76561197960287930").
Proof.
  rewrite (get_steam_id_found steam "gabe" (boot "KEY")
             (vanity_body [("steamid", PyStr "76561197960287930")])
             [("steamid", PyStr "76561197960287930")] "76561197960287930"
             eq_refl eq_refl eq_refl ltac:(discriminate)).
  reflexivity.
Defined.

(** A 503 is logged as an error, gives [[]], and the next call asks
    again. *)
Lemma get_app_list_transport_failure_at_503 :
  exists m',
    get_app_list unavailable (boot "KEY") = (Returned (PyList []), m') /\
    logged m' = [(ERROR, ErrorRetrievingAppList (HTTPError 503))] /\
    self m' = init "KEY" /\
    sent (snd (get_app_list unavailable m')) = [APP_LIST_URL; APP_LIST_URL].
Proof.
  destruct (get_app_list_transport_failure unavailable (boot "KEY") (HTTPError 503)
              eq_refl eq_refl) as (m' & Hget & Hlog & Hself & Hsent).
  exists m'. repeat split; try assumption.
  rewrite Hsent. injection Hget as <-. reflexivity.
Defined.

(** The body [{"response": {}}]. *)
Lemma get_steam_id_missing_at_empty_response :
  get_steam_id (always (ok_json (vanity_body []))) "gabe" (boot "KEY") =
    (Returned PyNone,
     {| self := init "KEY";
        sent := [vanity_url "KEY" "gabe"];
        logged := [(WARNING, SteamIDNotFound "gabe" (vanity_body []))] |}).
Proof.
  exact (get_steam_id_missing (always (ok_json (vanity_body []))) "gabe" (boot "KEY")
           (vanity_body []) [] eq_refl eq_refl eq_refl).
Defined.

(** Two records named Portal up to case: the later appid is found. *)
Lemma duplicate_names_last_wins_at_portals :
  fst (find_app_id ascii_lower (always (ok_json (applist_body portals)))
         (PyStr "portal") (boot "KEY"))
    = Returned (PyInt 999).
Proof.
  apply (duplicate_names_last_wins ascii_lower (always (ok_json (applist_body portals)))
           (boot "KEY")
           (logged_as INFO RetrievedAppList
              (cached portals (requested APP_LIST_URL (boot "KEY"))))
           [app 400 "Portal"; app 999 "PORTAL"]
           [] "Portal" (PyInt 400) [] "PORTAL" (PyInt 999) [] "portal"
           eq_refl eq_refl eq_refl (List.Forall_nil _)).
  - discriminate.
  - reflexivity.
Defined.

(** A game with appid 0 is returned as 0 and logged as not found. *)
Lemma find_app_id_zero_at_zero :
  find_app_id ascii_lower (always (ok_json (applist_body (PyList [app 0 "Zero"]))))
    (PyStr "ZERO") (boot "KEY") =
    (Returned (PyInt 0),
     {| self := {| api_key := "KEY"; app_list_cache := PyList [app 0 "Zero"] |};
        sent := [APP_LIST_URL];
        logged := [(INFO, RetrievedAppList);
                   (WARNING, AppIDNotFound (PyStr "ZERO"))] |}).
Proof.
  destruct (find_app_id_zero ascii_lower
              (always (ok_json (applist_body (PyList [app 0 "Zero"]))))
              (boot "KEY")
              (logged_as INFO RetrievedAppList
                 (cached (PyList [app 0 "Zero"]) (requested APP_LIST_URL (boot "KEY"))))
              [app 0 "Zero"] [("Zero", PyInt 0)] "ZERO"
              eq_refl eq_refl ltac:(discriminate)) as [Hzero _].
  exact (Hzero [] "Zero" [] eq_refl eq_refl (List.Forall_nil _)).
Defined.

(** An empty [steamid] is reported as [None]. *)
Lemma get_steam_id_empty_string_at_gabe :
  fst (get_steam_id (always (ok_json (vanity_body [("steamid", PyStr "")])))
         "gabe" (boot "KEY"))
    = Returned PyNone.
Proof.
  rewrite (get_steam_id_empty_string
             (always (ok_json (vanity_body [("steamid", PyStr "")])))
             "gabe" (boot "KEY")
             (vanity_body [("steamid", PyStr "")]) [("steamid", PyStr "")]
             eq_refl eq_refl eq_refl).
  reflexivity.
Defined.

(** * Where the code departs from the specification *)

(** C1: a successful response whose JSON body lacks an expected field is
    not reported as absence.  On the body [{}] [get_steam_id] raises
    [KeyError('response')] and [get_app_list] raises
    [KeyError('applist')]; on an app record without [name] [find_app_id]
    raises [KeyError('name')].  The [except] clauses catch
    [requests.RequestException] only. *)
Lemma malformed_body_raises :
  fst (get_steam_id (always (ok_json (PyDict []))) "gabe" (boot "KEY"))
    = Raised (KeyError "response") /\
  fst (get_app_list (always (ok_json (PyDict []))) (boot "KEY"))
    = Raised (KeyError "applist") /\
  fst (find_app_id ascii_lower
         (always (ok_json (applist_body (PyList [PyDict [("appid", PyInt 10)]]))))
         (PyStr "Portal") (boot "KEY"))
    = Raised (KeyError "name").
Proof. repeat split; vm_compute; reflexivity. Qed.

(** C4: with [response.steamid = ""] the request succeeds and the body
    holds the field, yet [get_steam_id] returns [None], not [""]. *)
Lemma empty_steamid_not_returned :
  delivered (always (ok_json (vanity_body [("steamid", PyStr "")])) 0%nat
               (vanity_url "KEY" "gabe"))
    = Some (vanity_body [("steamid", PyStr "")]) /\
  fst (get_steam_id (always (ok_json (vanity_body [("steamid", PyStr "")])))
         "gabe" (boot "KEY"))
    = Returned PyNone /\
  fst (get_steam_id (always (ok_json (vanity_body [("steamid", PyStr "")])))
         "gabe" (boot "KEY"))
    <> Returned (PyStr "").
Proof. split; [|split]; vm_compute; [reflexivity | reflexivity | discriminate]. Qed.

(** C5: a status outside 2xx is not always a failure.  A final response
    with status 300 and an app list as body passes [raise_for_status];
    [get_app_list] returns the list, caches it and logs at INFO level. *)
Lemma status_300_is_not_a_failure :
  get_app_list
    (always (GetReturned {| status_code := 300;
                            body := Some (applist_body counter_strike) |}))
    (boot "KEY") =
    (Returned counter_strike,
     {| self := {| api_key := "KEY"; app_list_cache := counter_strike |};
        sent := [APP_LIST_URL];
        logged := [(INFO, RetrievedAppList)] |}).
Proof. vm_compute. reflexivity. Qed.

(** C7: two records with the empty name.  The dict maps [""] to the later
    appid, 2, but [find_app_id("")] returns [None]: the guard on an empty
    game name comes first. *)
Lemma empty_duplicate_names_not_found :
  (exists d,
     app_dict_of ascii_lower (PyList [app 1 ""; app 2 ""]) = Returned d /\
     d !! "" = Some (PyInt 2)) /\
  fst (find_app_id ascii_lower
         (always (ok_json (applist_body (PyList [app 1 ""; app 2 ""]))))
         (PyStr "") (boot "KEY"))
    = Returned PyNone.
Proof.
  split; [|reflexivity].
  eexists. split; [reflexivity|]. vm_compute. reflexivity.
Qed.

(** C9: a record with the empty name and appid 0, and the empty query.
    The lowercased names agree, yet [find_app_id] returns [None], not 0,
    and looks nothing up. *)
Lemma zero_appid_empty_query :
  ascii_lower "" = ascii_lower "" /\
  find_app_id ascii_lower
    (always (ok_json (applist_body (PyList [app 0 ""]))))
    (PyStr "") (boot "KEY")
    = (Returned PyNone, boot "KEY").
Proof. split; reflexivity. Qed.

(** * The further properties at concrete inputs *)

(** Against a server that is down [get_steam_id] gives [None] and one
    ERROR record. *)
Lemma get_steam_id_nothing_delivered_at_503 :
  exists e,
    get_steam_id unavailable "gabe" (boot "KEY") =
      (Returned PyNone,
       {| self := init "KEY";
          sent := [vanity_url "KEY" "gabe"];
          logged := [(ERROR, ErrorRetrievingSteamID "gabe" e)] |}).
Proof.
  exact (get_steam_id_nothing_delivered unavailable "gabe" (boot "KEY") eq_refl).
Defined.

(** The Steam ID of [gabe] is truthy and logged at INFO level. *)
Lemma get_steam_id_none_or_truthy_at_gabe :
  (PyStr "76561197960287930" = PyNone /\
   exists lv msg,
     logged (snd (get_steam_id steam "gabe" (boot "KEY"))) = [(lv, msg)] /\
     (lv = WARNING \/ lv = ERROR)) \/
  (truthy (PyStr "76561197960287930") = true /\
   logged (snd (get_steam_id steam "gabe" (boot "KEY")))
     = [(INFO, RetrievedSteamID "gabe" (PyStr "76561197960287930"))]).
Proof.
  exact (get_steam_id_none_or_truthy steam "gabe" (boot "KEY")
           (PyStr "76561197960287930")
           (snd (get_steam_id steam "gabe" (boot "KEY"))) eq_refl).
Defined.


(** "Counter-Strike" and "COUNTER-STRIKE" are looked up alike. *)
Lemma find_app_id_ignores_query_case_at_counter_strike :
  fst (find_app_id ascii_lower steam (PyStr "Counter-Strike") (boot "KEY"))
    = fst (find_app_id ascii_lower steam (PyStr "COUNTER-STRIKE") (boot "KEY")) /\
  self (snd (find_app_id ascii_lower steam (PyStr "Counter-Strike") (boot "KEY")))
    = self (snd (find_app_id ascii_lower steam (PyStr "COUNTER-STRIKE") (boot "KEY"))) /\
  sent (snd (find_app_id ascii_lower steam (PyStr "Counter-Strike") (boot "KEY")))
    = sent (snd (find_app_id ascii_lower steam (PyStr "COUNTER-STRIKE") (boot "KEY"))).
Proof.
  apply (find_app_id_ignores_query_case ascii_lower steam
           "Counter-Strike" "COUNTER-STRIKE" (boot "KEY"));
    [discriminate | discriminate | reflexivity].
Defined.

(** With the list cached, a lookup gives 10 also after the server went
    down and other calls were made. *)
Lemma find_app_id_stable_at_filled :
  fst (find_app_id ascii_lower unavailable (PyStr "counter-strike")
         (perform_all ascii_lower unavailable
            [GetSteamId "gabe"; GetAppList; FindAppId (PyStr "portal")] filled))
    = Returned (PyInt 10).
Proof.
  rewrite (find_app_id_stable ascii_lower unavailable filled
             [GetSteamId "gabe"; GetAppList; FindAppId (PyStr "portal")]
             (PyStr "counter-strike") eq_refl).
  reflexivity.
Defined.

(** A record without [name]: the list is returned and cached, and a
    lookup raises [KeyError('name')] now and after further calls, with
    one request for the app list in all. *)
Lemma malformed_apps_stay_cached_at_nameless :
  fst (get_app_list (always (ok_json (applist_body nameless_apps))) (boot "KEY"))
    = Returned nameless_apps /\
  fst (find_app_id ascii_lower (always (ok_json (applist_body nameless_apps)))
         (PyStr "portal")
         (perform_all ascii_lower (always (ok_json (applist_body nameless_apps)))
            [FindAppId (PyStr "portal"); GetAppList]
            (snd (get_app_list (always (ok_json (applist_body nameless_apps)))
                    (boot "KEY")))))
    = Raised (KeyError "name") /\
  fetches
    (perform_all ascii_lower (always (ok_json (applist_body nameless_apps)))
       [FindAppId (PyStr "portal"); GetAppList]
       (snd (get_app_list (always (ok_json (applist_body nameless_apps)))
               (boot "KEY"))))
    = 1%nat.
Proof.
  destruct (malformed_apps_stay_cached ascii_lower
              (always (ok_json (applist_body nameless_apps))) (boot "KEY")
              (applist_body nameless_apps) (PyDict [("apps", nameless_apps)])
              nameless_apps (KeyError "name")
              eq_refl eq_refl eq_refl eq_refl eq_refl eq_refl) as [Hget Hlater].
  split; [exact Hget|].
  exact (Hlater [FindAppId (PyStr "portal"); GetAppList] (PyStr "portal") eq_refl).
Defined.

(** A lookup against a server that is down: [None], an ERROR record and
    a warning. *)
Lemma find_app_id_fetch_failed_at_503 :
  find_app_id ascii_lower unavailable (PyStr "portal") (boot "KEY") =
    (Returned PyNone,
     {| self := init "KEY";
        sent := [APP_LIST_URL];
        logged := [(ERROR, ErrorRetrievingAppList (HTTPError 503));
                   (WARNING, AppIDNotFound (PyStr "portal"))] |}).
Proof.
  exact (find_app_id_fetch_failed ascii_lower unavailable "portal" (boot "KEY")
           (HTTPError 503) ltac:(discriminate) eq_refl eq_refl).
Defined.

(** On the body [{}] both methods raise and leave an empty log. *)
Lemma raising_leaves_no_log_at_empty_body :
  logged (snd (get_steam_id (always (ok_json (PyDict []))) "gabe" (boot "KEY"))) = [] /\
  logged (snd (get_app_list (always (ok_json (PyDict []))) (boot "KEY"))) = [].
Proof.
  destruct (raising_leaves_no_log (always (ok_json (PyDict []))) "gabe" (boot "KEY")
              (KeyError "response")
              (snd (get_steam_id (always (ok_json (PyDict []))) "gabe" (boot "KEY"))))
    as [Hid _].
  destruct (raising_leaves_no_log (always (ok_json (PyDict []))) "gabe" (boot "KEY")
              (KeyError "applist")
              (snd (get_app_list (always (ok_json (PyDict []))) (boot "KEY"))))
    as [_ Hlist].
  rewrite (Hid eq_refl), (Hlist eq_refl). split; reflexivity.
Defined.

(** Against [steam] the value returned is the new cache; against a
    server that is down it is a fresh [[]] and the cache stays [None]. *)
Lemma get_app_list_returns_cache_at_steam :
  (counter_strike = app_list_cache (self filled) \/
   (counter_strike = PyList [] /\ self filled = self (boot "KEY") /\
    exists e, logged filled = [(ERROR, ErrorRetrievingAppList e)])) /\
  (PyList [] = app_list_cache (self (snd (get_app_list unavailable (boot "KEY")))) \/
   (PyList [] = PyList [] /\
    self (snd (get_app_list unavailable (boot "KEY"))) = self (boot "KEY") /\
    exists e,
      logged (snd (get_app_list unavailable (boot "KEY")))
        = [(ERROR, ErrorRetrievingAppList e)])).
Proof.
  split.
  - exact (get_app_list_returns_cache steam (boot "KEY") counter_strike filled eq_refl).
  - exact (get_app_list_returns_cache unavailable (boot "KEY") (PyList [])
             (snd (get_app_list unavailable (boot "KEY"))) eq_refl).
Defined.


Lemma steam_well_behaved : well_behaved steam.
Proof.
  intros n url. unfold steam.
  destruct (String.eqb url APP_LIST_URL); reflexivity.
Qed.

(** Five calls against [steam], none raises. *)
Lemma well_behaved_server_never_raises_at_steam :
  all_return ascii_lower steam
    [FindAppId PyNone; GetSteamId "gabe"; FindAppId (PyStr "portal");
     GetAppList; FindAppId (PyStr "")]
    (boot "KEY") = true.
Proof.
  exact (well_behaved_server_never_raises ascii_lower steam steam_well_behaved
           [FindAppId PyNone; GetSteamId "gabe"; FindAppId (PyStr "portal");
            GetAppList; FindAppId (PyStr "")]
           (boot "KEY") eq_refl eq_refl).
Defined.

(** The user name [gabe&vanityurl=newell] with key [KEY] and the user
    name [newell] with key [KEY&vanityurl=gabe] make one and the same
    request. *)
Lemma username_is_not_escaped_at_gabe :
  vanity_url "KEY" "gabe&vanityurl=newell"
    = vanity_url "KEY&vanityurl=gabe" "newell" /\
  fst (get_steam_id steam "gabe&vanityurl=newell" (boot "KEY"))
    = fst (get_steam_id steam "newell" (boot "KEY&vanityurl=gabe")).
Proof.
  exact (username_is_not_escaped steam "KEY" "gabe" "newell"
           (boot "KEY") (boot "KEY&vanityurl=gabe") eq_refl eq_refl eq_refl).
Defined.
